(** * smretriever: the SurveyMonkey client and its R package manager

    A shallow embedding of [smretriever/client.py].  The client drives an
    embedded R runtime through rpy2 and turns the R data frames it gets back
    into pandas DataFrames.  The R runtime, the package loader and the
    operating system are outside the repository: they appear below as the
    variables of a section, each a function on an explicit world state.
    Everything the Python code itself does (the conversion of a data frame,
    the reconciliation of missing values, the package cache, the bulk fetch,
    the constructor's error handling) is a definition of this file. *)

From Stdlib Require Import ZArith QArith Ascii String List DecimalString.
From stdpp Require Import base option list strings gmap.

Local Open Scope Z_scope.
Local Open Scope nat_scope.
Local Open Scope string_scope.
Local Open Scope list_scope.

(** ** Text helpers *)

(** The characters that a Rocq string literal cannot hold directly. *)
Definition dquote : string := String (ascii_of_nat 34) EmptyString.
Definition newline : string := String (ascii_of_nat 10) EmptyString.

(** Python's [str] on a non-negative [int] (the row index [j]). *)
Definition str_of_nat (n : nat) : string :=
  NilZero.string_of_uint (Nat.to_uint n).

(** Python's [str] on an [int] (a survey id, a limit). *)
Definition str_of_Z (z : Z) : string :=
  NilZero.string_of_int (Z.to_int z).

(** ** Python objects handed over by rpy2

    [robj] is the type of the objects that [r_vector[j]] returns: one of
    rpy2's NA singletons, or an ordinary Python scalar.  A finite Python
    float is carried as a rational. *)
Inductive robj : Type :=
  | NA_Real
  | NA_Integer
  | NA_Logical
  | NA_Character
  | NA_Complex
  | PyInt (n : Z)
  | PyFloat (x : Q)
  | PyBool (b : bool)
  | PyStr (s : string)
  | PyComplex (re im : Q).

(** A pandas cell: the value that the constructor of the DataFrame took
    over from the R vector, or one of the two host markers for a missing
    value, [np.nan] and [pd.NA]. *)
Inductive pdcell : Type :=
  | Value (v : robj)
  | np_nan
  | pd_NA.

(** [self.na_types] (client.py, lines 43-49): the NA sentinels the client
    records "for later identification". *)
Definition na_types : list (string * robj) :=
  [ ("integer", NA_Integer);
    ("real", NA_Real);
    ("logical", NA_Logical);
    ("character", NA_Character);
    ("complex", NA_Complex) ].

(** The object is one of the recorded NA sentinels ([value is s] for some
    [s] among the values of [na_types]). *)
Definition is_r_na (value : robj) : bool :=
  match value with
  | NA_Real | NA_Integer | NA_Logical | NA_Character | NA_Complex => true
  | _ => false
  end.

(** ** Exceptions and results *)

(** [Exception msg] stands for an instance of a subclass of Python's
    [Exception] whose [str] is [msg]; [SystemExit code] is what [sys.exit]
    raises, and it is not a subclass of [Exception]. *)
Inductive exn : Type :=
  | Exception (msg : string)
  | SystemExit (code : Z).

Inductive result (A : Type) : Type :=
  | Ok (a : A)
  | Raise (e : exn).
Arguments Ok {A} a.
Arguments Raise {A} e.

Definition str_exn (e : exn) : string :=
  match e with
  | Exception msg => msg
  | SystemExit code => str_of_Z code
  end.

(** The name of the Python type of an object, as it shows in a TypeError. *)
Definition type_name (value : robj) : string :=
  match value with
  | NA_Real => "NARealType"
  | NA_Integer => "NAIntegerType"
  | NA_Logical => "NALogicalType"
  | NA_Character => "NACharacterType"
  | NA_Complex => "NAComplexType"
  | PyInt _ => "int"
  | PyFloat _ => "float"
  | PyBool _ => "bool"
  | PyStr _ => "str"
  | PyComplex _ _ => "complex"
  end.

(** [R_NaInt], the machine integer behind [NA_Integer] and [NA_Logical]:
    both singletons are instances of subclasses of [int]. *)
Definition R_NaInt : Z := (-2147483648)%Z.

(** Python's [value <= 0].  Integers and booleans compare as integers, the
    two integer-backed NA singletons as [R_NaInt], floats as floats
    ([NA_Real] is a NaN, and every comparison with a NaN is false); strings
    and complex numbers have no order against an [int] and raise TypeError. *)
Definition py_le_0 (value : robj) : result bool :=
  match value with
  | PyInt n => Ok (n <=? 0)%Z
  | PyBool b => Ok (negb b)
  | NA_Integer | NA_Logical => Ok (R_NaInt <=? 0)%Z
  | PyFloat x => Ok (Qle_bool x 0)
  | NA_Real => Ok false
  | PyStr _ | NA_Character | PyComplex _ _ | NA_Complex =>
      Raise (Exception ("'<=' not supported between instances of '"
                          ++ type_name value ++ "' and 'int'"))
  end.

(** ** The effects of the client

    The client prints to standard output, reads and writes the process
    environment, and talks to the world outside Python (the R runtime, the
    file system).  A computation takes a state and gives back the new state
    and either a value or the exception it raised. *)
Record state (W : Type) : Type := mkState {
  world : W;
  environ : list (string * string);
  stdout : list string
}.
Arguments mkState {W} world environ stdout.
Arguments world {W} s.
Arguments environ {W} s.
Arguments stdout {W} s.

Definition M (W A : Type) : Type := state W -> state W * result A.

Definition ret {W A} (a : A) : M W A := fun st => (st, Ok a).

Definition bind {W A B} (m : M W A) (k : A -> M W B) : M W B :=
  fun st =>
    match m st with
    | (st', Ok a) => k a st'
    | (st', Raise e) => (st', Raise e)
    end.

Definition raise {W A} (e : exn) : M W A := fun st => (st, Raise e).

(** A pure step that may raise. *)
Definition lift {W A} (r : result A) : M W A := fun st => (st, r).

(** [print(line)] *)
Definition print {W} (line : string) : M W unit :=
  fun st => (mkState (world st) (environ st) (stdout st ++ [line]), Ok tt).

(** [try: body except Exception as e: handler(e)]: a [SystemExit] passes
    through. *)
Definition try_except {W A} (body : M W A) (handler : exn -> M W A) : M W A :=
  fun st =>
    match body st with
    | (st', Raise (Exception msg)) => handler (Exception msg) st'
    | (st', r) => (st', r)
    end.

(** [try: body except: handler()]: the bare clause catches everything. *)
Definition try_except_all {W A} (body : M W A) (handler : M W A) : M W A :=
  fun st =>
    match body st with
    | (st', Raise _) => handler st'
    | (st', r) => (st', r)
    end.

(** [sys.exit(code)] *)
Definition sys_exit {W A} (code : Z) : M W A := raise (SystemExit code).

(** A call into the world outside Python: it moves the world on and either
    returns or fails with a Python [Exception] carrying a message. *)
Definition external {W A} (f : W -> W * (string + A)) : M W A :=
  fun st =>
    match f (world st) with
    | (w', inr a) => (mkState w' (environ st) (stdout st), Ok a)
    | (w', inl msg) => (mkState w' (environ st) (stdout st), Raise (Exception msg))
    end.

Declare Scope py_scope.
Delimit Scope py_scope with py.
Notation "x <- c1 ;; c2" := (bind c1 (fun x => c2))
  (at level 100, c1 at next level, right associativity) : py_scope.
Notation "c1 ;; c2" := (bind c1 (fun _ => c2))
  (at level 100, right associativity) : py_scope.
Local Open Scope py_scope.

(** ** Python dictionaries that keep their insertion order *)

Section dict.
Context {V : Type}.

(** [d[k] = v]: an existing key keeps its place and takes the new value,
    a new key goes to the end. *)
Fixpoint dict_set (k : string) (v : V) (d : list (string * V)) : list (string * V) :=
  match d with
  | [] => [(k, v)]
  | (k', v') :: d' =>
      if String.eqb k k' then (k', v) :: d' else (k', v') :: dict_set k v d'
  end.

(** [dict(items)] *)
Definition dict (items : list (string * V)) : list (string * V) :=
  fold_left (fun d kv => dict_set (fst kv) (snd kv) d) items [].

Fixpoint dict_get (k : string) (d : list (string * V)) : option V :=
  match d with
  | [] => None
  | (k', v') :: d' => if String.eqb k k' then Some v' else dict_get k d'
  end.

(** Apply [f] to the value stored under [k]. *)
Fixpoint dict_alter (f : V -> V) (k : string) (d : list (string * V)) : list (string * V) :=
  match d with
  | [] => []
  | (k', v') :: d' =>
      if String.eqb k k' then (k', f v') :: d' else (k', v') :: dict_alter f k d'
  end.

Definition keys (d : list (string * V)) : list string := map fst d.
End dict.

(** ** R data frames as rpy2 presents them *)

(** An R vector: its class attribute [rclass] (never empty in R; its first
    element is the one the client looks at) and the objects that
    [r_vector[j]] returns for [j] in [range(len(r_vector))]. *)
Record r_vector : Type := mkVector {
  rclass_head : string;
  rclass_tail : list string;
  cells : list robj
}.

Definition rclass (v : r_vector) : list string := rclass_head v :: rclass_tail v.

(** An R data frame: a list of named vectors.  [names] is
    [r_dataframe.names], [vectors] is [list(r_dataframe)], and the [i]-th
    element is [r_dataframe[i]]. *)
Definition r_dataframe : Type := list (string * r_vector).

Definition names (r : r_dataframe) : list string := map fst r.
Definition vectors (r : r_dataframe) : list r_vector := map snd r.

(** ** pandas DataFrames *)

(** Row labels and named columns; every column has one cell per label. *)
Record DataFrame : Type := mkDataFrame {
  index : list nat;
  columns : list (string * list pdcell)
}.

Definition column_names (df : DataFrame) : list string := keys (columns df).

(** [pd.DataFrame(data)] for a dict of vectors: one column per key in the
    order of the dict, a [RangeIndex] over the rows; vectors of different
    lengths are refused. *)
Definition pd_DataFrame (data : list (string * r_vector)) : result DataFrame :=
  match data with
  | [] => Ok (mkDataFrame [] [])
  | (_, v0) :: _ =>
      let n := length (cells v0) in
      if forallb (fun kv => Nat.eqb (length (cells (snd kv))) n) data
      then Ok (mkDataFrame (seq 0 n)
                 (map (fun kv => (fst kv, map Value (cells (snd kv)))) data))
      else Raise (Exception "All arrays must be of the same length")
  end.

(** The position of the row labelled [j]. *)
Fixpoint index_pos (j : nat) (idx : list nat) : option nat :=
  match idx with
  | [] => None
  | i :: rest => if Nat.eqb i j then Some 0 else option_map S (index_pos j rest)
  end.


(** [df.loc[j, col_name] = x].  A label or a column that the frame does
    not have yet is added first (pandas enlarges the frame and fills the
    new cells with NaN); then the one cell is overwritten. *)
Definition loc_set (j : nat) (col_name : string) (x : pdcell) (df : DataFrame) : DataFrame :=
  let df1 :=
    match index_pos j (index df) with
    | Some _ => df
    | None => mkDataFrame (index df ++ [j])
                (map (fun kc => (fst kc, snd kc ++ [np_nan])) (columns df))
    end in
  let df2 :=
    match dict_get col_name (columns df1) with
    | Some _ => df1
    | None => mkDataFrame (index df1)
                (columns df1 ++ [(col_name, replicate (length (index df1)) np_nan)])
    end in
  match index_pos j (index df2) with
  | Some p => mkDataFrame (index df2) (dict_alter (fun col => <[p := x]> col) col_name (columns df2))
  | None => df2
  end.

(** ** Reconciling R's missing values with pandas' *)

Section conversion.
Context {W : Type}.

(** [value is NA_Real], [value is NA_Integer], ... : identity with one of
    rpy2's singletons. *)
Definition is_NA_Real (value : robj) : bool :=
  match value with NA_Real => true | _ => false end.
Definition is_NA_Integer (value : robj) : bool :=
  match value with NA_Integer => true | _ => false end.
Definition is_NA_Character (value : robj) : bool :=
  match value with NA_Character => true | _ => false end.
Definition is_NA_Logical (value : robj) : bool :=
  match value with NA_Logical => true | _ => false end.

(** The condition of the [if] in each of the four inner loops. *)
Definition numeric_check (value : robj) : result bool :=
  Ok (is_NA_Real value || is_NA_Integer value).
Definition character_check (value : robj) : result bool :=
  Ok (is_NA_Character value).
Definition logical_check (value : robj) : result bool :=
  Ok (is_NA_Logical value).
Definition factor_check (value : robj) : result bool :=
  py_le_0 value.

Definition error_checking_NA (col_name : string) (j : nat) (e : exn) : string :=
  "Error checking NA for " ++ col_name ++ " at index " ++ str_of_nat j
    ++ ": " ++ str_exn e.

(** The body of an inner loop:
    [try: value = r_vector[j]; if check(value): pandas_df.loc[j, col_name] = marker]
    [except Exception as e: print(...)]. *)
Definition check_cell (check : robj -> result bool) (marker : pdcell)
    (col_name : string) (j : nat) (value : robj) (pandas_df : DataFrame)
    : M W DataFrame :=
  try_except
    (missing <- lift (check value) ;;
     if missing : bool
     then ret (loc_set j col_name marker pandas_df)
     else ret pandas_df)
    (fun e => print (error_checking_NA col_name j e) ;; ret pandas_df).

(** [for j in range(len(r_vector))], from row [j] on. *)
Fixpoint for_range (body : nat -> robj -> DataFrame -> M W DataFrame)
    (j : nat) (r_vector : list robj) (pandas_df : DataFrame) : M W DataFrame :=
  match r_vector with
  | [] => ret pandas_df
  | value :: rest =>
      pandas_df' <- body j value pandas_df ;;
      for_range body (S j) rest pandas_df'
  end.

(** The body of the outer loop (client.py, lines 148-196): the branch on
    [vec_type = r_vector.rclass[0]]. *)
Definition replace_in_column (col_name : string) (r_vector : r_vector)
    (pandas_df : DataFrame) : M W DataFrame :=
  let vec_type := rclass_head r_vector in
  if String.eqb vec_type "numeric" || String.eqb vec_type "integer" then
    for_range (check_cell numeric_check np_nan col_name) 0 (cells r_vector) pandas_df
  else if String.eqb vec_type "character" then
    for_range (check_cell character_check pd_NA col_name) 0 (cells r_vector) pandas_df
  else if String.eqb vec_type "logical" then
    for_range (check_cell logical_check pd_NA col_name) 0 (cells r_vector) pandas_df
  else if String.eqb vec_type "factor" then
    for_range (check_cell factor_check pd_NA col_name) 0 (cells r_vector) pandas_df
  else ret pandas_df.

(** [for i, col_name in enumerate(col_names): r_vector = r_dataframe[i]; ...] *)
Fixpoint for_columns (cols : list (string * r_vector)) (pandas_df : DataFrame)
    : M W DataFrame :=
  match cols with
  | [] => ret pandas_df
  | (col_name, r_vector) :: rest =>
      pandas_df' <- replace_in_column col_name r_vector pandas_df ;;
      for_columns rest pandas_df'
  end.

(** [SurveyMonkeyClient._replace_r_na_with_pandas_na] (lines 129-198). *)
Definition _replace_r_na_with_pandas_na (pandas_df : DataFrame)
    (r_dataframe : r_dataframe) : M W DataFrame :=
  let col_names := names r_dataframe in
  for_columns (zip col_names (vectors r_dataframe)) pandas_df.

(** [pd.DataFrame(dict(zip(x.names, list(x))))], the conversion that the
    three fetching methods share. *)
Definition to_pandas (x : r_dataframe) : M W DataFrame :=
  lift (pd_DataFrame (dict (zip (names x) (vectors x)))).
End conversion.

(** ** The package manager *)

Section packages.
Context {W handle : Type}.

(** [rpy2.robjects.packages.importr] and R's [utils::install.packages];
    both run in the R runtime. *)
Variable importr : string -> W -> W * (string + handle).
Variable install_packages : string -> W -> W * (string + unit).

Record RPackageManager : Type := mkManager {
  utils : handle;
  base : handle;
  packages : gmap string handle
}.

(** [RPackageManager.__init__] (lines 228-241). *)
Definition RPackageManager_init : M W RPackageManager :=
  utils <- external (importr "utils") ;;
  base <- external (importr "base") ;;
  ret (mkManager utils base (<["base" := base]> (<["utils" := utils]> ∅))).

(** [RPackageManager.import_package] (lines 243-265); the manager after
    the call comes back with the handle.  The Python statement
    [from rpy2.robjects.packages import importr] at the head of the method
    binds a name of a module that the constructor has loaded already and
    does not reach the R runtime. *)
Definition import_package (self : RPackageManager) (package_name : string)
    : M W (RPackageManager * handle) :=
  match packages self !! package_name with
  | Some package => ret (self, package)
  | None =>
      package <- try_except_all
                   (external (importr package_name))
                   (external (install_packages package_name) ;;
                    external (importr package_name)) ;;
      ret (mkManager (utils self) (base self)
             (<[package_name := package]> (packages self)), package)
  end.
End packages.

(** ** The client *)

Section client.
Context {W handle : Type}.

(** The world outside Python.  [import_rpy2] is the import of rpy2's
    modules, which starts the embedded R runtime; [robjects_r] is
    [rpy2.robjects.r], which runs an R program given as text (the client
    uses its value as a data frame, or drops it); [os_path_exists] is
    [os.path.exists]. *)
Variable import_rpy2 : W -> W * (string + unit).
Variable importr : string -> W -> W * (string + handle).
Variable install_packages : string -> W -> W * (string + unit).
Variable robjects_r : string -> W -> W * (string + r_dataframe).
Variable os_path_exists : string -> W -> bool.

Record SurveyMonkeyClient : Type := mkClient {
  r_manager : @RPackageManager handle;
  tidyverse : handle;
  ggplot2 : handle;
  surveymonkey : handle;
  readxl : handle
}.

(** [os.environ[name] = value] *)
Definition setenv (name value : string) : M W unit :=
  fun st => (mkState (world st) (dict_set name value (environ st)) (stdout st), Ok tt).

(** The [try] block of the constructor (lines 34-62). *)
Definition init_body (oauth_token : option string) : M W SurveyMonkeyClient :=
  external import_rpy2 ;;
  r_manager <- RPackageManager_init importr ;;
  p1 <- import_package importr install_packages r_manager "tidyverse" ;;
  p2 <- import_package importr install_packages (fst p1) "ggplot2" ;;
  p3 <- import_package importr install_packages (fst p2) "surveymonkey" ;;
  p4 <- import_package importr install_packages (fst p3) "readxl" ;;
  match oauth_token with
  | Some (String c token) =>
      external (robjects_r ("options(sm_oauth_token = " ++ dquote
                              ++ String c token ++ dquote ++ ")")) ;;
      ret tt
  | _ => ret tt
  end ;;
  ret (mkClient (fst p4) (snd p1) (snd p2) (snd p3) (snd p4)).

(** The constructor before its [try] block (lines 22-31): [R_HOME] is set
    and its path is looked up. *)
Definition init_preamble (r_home : option string) : M W unit :=
  let r_home := match r_home with
                | None => "C:/Program Files/R/R-4.3.3"
                | Some path => path
                end in
  setenv "R_HOME" r_home ;;
  (fun st =>
     (if os_path_exists r_home (world st)
      then ret tt
      else (print ("Warning: R_HOME path '" ++ r_home ++ "' does not exist") ;;
            print "Please install R or set the correct R_HOME path")) st).

(** The [except Exception as e] clause of the constructor (lines 64-67). *)
Definition init_handler (e : exn) : M W SurveyMonkeyClient :=
  print ("Error initializing R environment: " ++ str_exn e) ;;
  print "Make sure R is installed and R_HOME is correctly set" ;;
  sys_exit 1.

(** [SurveyMonkeyClient.__init__] (lines 14-67). *)
Definition __init__ (oauth_token r_home : option string) : M W SurveyMonkeyClient :=
  init_preamble r_home ;;
  try_except (init_body oauth_token) init_handler.

(** [get_available_surveys] (lines 69-82). *)
Definition get_available_surveys (limit : Z) : M W DataFrame :=
  r_surveys <- external (robjects_r ("browse_surveys(" ++ str_of_Z limit ++ ")")) ;;
  surveys_df <- to_pandas r_surveys ;;
  ret surveys_df.

(** The R program of [filter_surveys] (lines 94-97). *)
Definition filter_surveys_code (keyword : string) : string :=
  newline ++
  "        surveys %>%" ++ newline ++
  "            filter(title %>% str_detect(" ++ dquote ++ keyword ++ dquote ++ "))" ++ newline ++
  "        ".

(** [filter_surveys] (lines 84-99). *)
Definition filter_surveys (keyword : string) : M W DataFrame :=
  filtered <- external (robjects_r (filter_surveys_code keyword)) ;;
  to_pandas filtered.

(** The R program of [download_survey_data] (lines 111-118). *)
Definition download_survey_data_code (survey_id : Z) : string :=
  newline ++
  "        df <- " ++ str_of_Z survey_id ++ " %>%" ++ newline ++
  "            fetch_survey_obj %>%" ++ newline ++
  "            parse_survey(fix_duplicates = 'none')" ++ newline ++
  "        " ++ newline ++
  "        df <- df %>% filter(response_status==" ++ dquote ++ "completed" ++ dquote ++ ")" ++ newline ++
  "        df" ++ newline ++
  "        ".

(** [download_survey_data] (lines 101-127). *)
Definition download_survey_data (survey_id : Z) : M W DataFrame :=
  survey_data <- external (robjects_r (download_survey_data_code survey_id)) ;;
  pandas_df <- to_pandas survey_data ;;
  pandas_df <- _replace_r_na_with_pandas_na pandas_df survey_data ;;
  ret pandas_df.

(** The body of the loop of [download_multiple_surveys] (lines 213-220);
    [None] is Python's [None]. *)
Definition download_one (survey_id : Z) (survey_data_dict : gmap Z (option DataFrame))
    : M W (gmap Z (option DataFrame)) :=
  try_except
    (print ("Downloading data for survey ID: " ++ str_of_Z survey_id) ;;
     df <- download_survey_data survey_id ;;
     let survey_data_dict := <[survey_id := Some df]> survey_data_dict in
     print ("Successfully downloaded data for survey ID: " ++ str_of_Z survey_id) ;;
     ret survey_data_dict)
    (fun e =>
       print ("Error downloading data for survey ID " ++ str_of_Z survey_id
                ++ ": " ++ str_exn e) ;;
       ret (<[survey_id := None]> survey_data_dict)).

(** [for survey_id in survey_ids] *)
Fixpoint for_survey_ids (survey_ids : list Z)
    (survey_data_dict : gmap Z (option DataFrame)) : M W (gmap Z (option DataFrame)) :=
  match survey_ids with
  | [] => ret survey_data_dict
  | survey_id :: rest =>
      survey_data_dict' <- download_one survey_id survey_data_dict ;;
      for_survey_ids rest survey_data_dict'
  end.

(** [download_multiple_surveys] (lines 200-221). *)
Definition download_multiple_surveys (survey_ids : list Z)
    : M W (gmap Z (option DataFrame)) :=
  for_survey_ids survey_ids ∅.
End client.

(** * Vocabulary of the statements *)

(** ** The conversion as a function of the R data frame *)

Definition add_log {W} (st : state W) (lines : list string) : state W :=
  mkState (world st) (environ st) (stdout st ++ lines).

(** A check that never ends the process. *)
Definition safe_check (check : robj -> result bool) : Prop :=
  forall value code, check value <> Raise (SystemExit code).

(** What a cell becomes under a check and its marker. *)
Definition convert_cell (check : robj -> result bool) (marker : pdcell)
    (value : robj) : pdcell :=
  match check value with
  | Ok true => marker
  | _ => Value value
  end.

(** What is printed for a cell. *)
Definition cell_log (check : robj -> result bool) (col_name : string) (j : nat)
    (value : robj) : list string :=
  match check value with
  | Raise e => [error_checking_NA col_name j e]
  | Ok _ => []
  end.

Fixpoint range_log (check : robj -> result bool) (col_name : string) (j : nat)
    (r_vector : list robj) : list string :=
  match r_vector with
  | [] => []
  | value :: rest => cell_log check col_name j value ++ range_log check col_name (S j) rest
  end.

(** The check and the marker that the branch on [vec_type] selects. *)
Definition column_check (vec_type : string) : option ((robj -> result bool) * pdcell) :=
  if String.eqb vec_type "numeric" || String.eqb vec_type "integer"
  then Some (numeric_check, np_nan)
  else if String.eqb vec_type "character" then Some (character_check, pd_NA)
  else if String.eqb vec_type "logical" then Some (logical_check, pd_NA)
  else if String.eqb vec_type "factor" then Some (factor_check, pd_NA)
  else None.

Definition convert_cells (v : r_vector) : list pdcell :=
  match column_check (rclass_head v) with
  | Some (check, marker) => map (convert_cell check marker) (cells v)
  | None => map Value (cells v)
  end.

Definition column_log (col_name : string) (v : r_vector) : list string :=
  match column_check (rclass_head v) with
  | Some (check, _) => range_log check col_name 0 (cells v)
  | None => []
  end.

Definition raw_column (kv : string * r_vector) : string * list pdcell :=
  (fst kv, map Value (cells (snd kv))).

Definition converted_column (kv : string * r_vector) : string * list pdcell :=
  (fst kv, convert_cells (snd kv)).

Fixpoint frame_log (r : r_dataframe) : list string :=
  match r with
  | [] => []
  | (col_name, v) :: rest => column_log col_name v ++ frame_log rest
  end.





(** A computation that returns a frame with the column names of [df]. *)
Definition keeps_names {W} (df : DataFrame) (m : M W DataFrame) : Prop :=
  forall st, exists st' df',
    m st = (st', Ok df') /\ column_names df' = column_names df.

(** A computation that raises nothing but instances of [Exception]. *)
Definition only_Exceptions {W A} (m : M W A) : Prop :=
  forall st st' e, m st = (st', Raise e) -> exists msg, e = Exception msg.

(** The columns of a data frame have one length. *)
Definition rectangular (r : r_dataframe) : Prop :=
  exists n, Forall (fun kv => length (cells (snd kv)) = n) r.

(** The DataFrame has the column names of the R data frame: the same names,
    each once, and, when the names of the data frame are pairwise distinct,
    the same list of names. *)
Definition names_preserved (r : r_dataframe) (df : DataFrame) : Prop :=
  (forall name, name ∈ column_names df <-> name ∈ names r)
  /\ NoDup (column_names df)
  /\ (NoDup (names r) -> column_names df = names r).

(** A fetching method converts the data frame that its R program returns:
    when the columns of that data frame have one length the method returns
    a DataFrame, and a DataFrame that it returns has the column names of
    the data frame. *)
Definition converts_result {W} (robjects_r : string -> W -> W * (string + r_dataframe))
    (code : string) (method : M W DataFrame) : Prop :=
  forall (st : state W) (w' : W) (r : r_dataframe),
    robjects_r code (world st) = (w', inr r) ->
    (rectangular r -> exists st' df, method st = (st', Ok df))
    /\ (forall st' df, method st = (st', Ok df) -> names_preserved r df).

(** A fetching method returns the columns of the data frame that its R
    program returned, one for one. *)
Definition returns_source_columns {W}
    (robjects_r : string -> W -> W * (string + r_dataframe))
    (code : string) (method : M W DataFrame) : Prop :=
  forall (st st' : state W) (w' : W) (r : r_dataframe) (df : DataFrame),
    robjects_r code (world st) = (w', inr r) ->
    method st = (st', Ok df) ->
    column_names df = names r.

(** C3 as the specification states it: whatever data frame the R call
    returns, every column of it is a column of the DataFrame. *)
Definition every_source_column_appears : Prop :=
  forall robjects_r : string -> unit -> unit * (string + r_dataframe),
    (forall limit,
       returns_source_columns robjects_r ("browse_surveys(" ++ str_of_Z limit ++ ")")
         (get_available_surveys robjects_r limit))
    /\ (forall keyword,
          returns_source_columns robjects_r (filter_surveys_code keyword)
            (filter_surveys robjects_r keyword))
    /\ (forall survey_id,
          returns_source_columns robjects_r (download_survey_data_code survey_id)
            (download_survey_data robjects_r survey_id)).

(** A data frame in which two columns share the name [q]. *)
Definition repeated_name_frame : r_dataframe :=
  [ ("q", mkVector "character" [] [PyStr "a"]);
    ("id", mkVector "integer" [] [PyInt 7]);
    ("q", mkVector "character" [] [PyStr "b"]) ].

(** The line printed before a download. *)
Definition downloading (survey_id : Z) : string :=
  "Downloading data for survey ID: " ++ str_of_Z survey_id.



(** A data frame with a column of each kind: numbers with two NAs, text
    with an NA, booleans with an NA, a factor with a zero code and an NA,
    something that calls itself a factor and holds a string, and complex
    numbers. *)
Definition sample_frame : r_dataframe :=
  [ ("age", mkVector "numeric" [] [PyFloat (3 # 2); NA_Real; NA_Integer]);
    ("name", mkVector "character" [] [PyStr "a"; NA_Character; PyStr "b"]);
    ("ok", mkVector "logical" [] [NA_Logical; PyBool true; PyBool false]);
    ("grp", mkVector "factor" [] [PyInt 1; PyInt 0; NA_Integer]);
    ("bad", mkVector "factor" [] [PyStr "x"; PyInt 2; PyInt (-1)]);
    ("z", mkVector "complex" [] [NA_Complex; PyComplex 1 2; NA_Complex]) ].

Definition sample_pandas : DataFrame :=
  mkDataFrame [0; 1; 2] (map raw_column sample_frame).

Definition quiet : state unit := mkState tt [] [].

(** An R runtime that knows one survey, number 1, and answers every other
    program with an error; the world counts the calls. *)
Definition sample_r (code : string) (calls : nat) : nat * (string + r_dataframe) :=
  if String.eqb code (download_survey_data_code 1)
  then (S calls, inr sample_frame)
  else (S calls, inl "survey not found").

(** A package loader that finds every package; the world lists the calls. *)
Definition sample_importr (name : string) (calls : list string)
    : list string * (string + string) :=
  (calls ++ [("importr " ++ name)%string], inr name).

Definition sample_install (name : string) (calls : list string)
    : list string * (string + unit) :=
  (calls ++ [("install " ++ name)%string], inr tt).

Definition sample_manager : @RPackageManager string :=
  mkManager "utils" "base" (<["base" := "base"]> (<["utils" := "utils"]> ∅)).

(** A machine without R: the import of rpy2 fails. *)
Definition no_rpy2 (calls : list string) : list string * (string + unit) :=
  (calls ++ ["import rpy2"], inl "R_HOME not found").

Definition sample_r_options (code : string) (calls : list string)
    : list string * (string + r_dataframe) :=
  (calls ++ [code], inr []).

(** ** Vocabulary of the further properties *)

(** Every step of a computation, whatever its outcome, relates the state
    before to the state after by [R]. *)
Definition steps {W A} (R : state W -> state W -> Prop) (m : M W A) : Prop :=
  forall st st' r, m st = (st', r) -> R st st'.


(** What was on standard output is still there, at the front. *)
Definition stdout_grows {W} (st st' : state W) : Prop :=
  exists lines, stdout st' = stdout st ++ lines.


(** The path that the constructor writes to [R_HOME]. *)
Definition r_home_path (r_home : option string) : string :=
  match r_home with
  | None => "C:/Program Files/R/R-4.3.3"
  | Some path => path
  end.

(** The two lines that the constructor prints when that path is missing. *)
Definition r_home_warning (r_home : option string) : list string :=
  [ ("Warning: R_HOME path '" ++ r_home_path r_home ++ "' does not exist")%string;
    "Please install R or set the correct R_HOME path" ].

(** The names in the cache of the manager of a client. *)
Definition client_packages : list string :=
  [ "utils"; "base"; "tidyverse"; "ggplot2"; "surveymonkey"; "readxl" ].

(** What the bulk fetch stores for an id, given the outcome of its
    download: the DataFrame, or [None] after an exception. *)
Definition entry_of (r : result DataFrame) : option DataFrame :=
  match r with
  | Ok df => Some df
  | Raise _ => None
  end.

(** The line that the bulk fetch prints for a failed download. *)
Definition error_downloading (survey_id : Z) (e : exn) : string :=
  "Error downloading data for survey ID " ++ str_of_Z survey_id ++ ": " ++ str_exn e.






(** ** Sample worlds for the further properties *)


(** An R runtime whose first call times out and whose later calls return
    the sample data frame. *)
Definition flaky_r (code : string) (calls : nat) : nat * (string + r_dataframe) :=
  match calls with
  | 0 => (1, inl "timeout")
  | S _ => (S calls, inr sample_frame)
  end.

(** A machine on which rpy2 loads. *)
Definition working_rpy2 (calls : list string) : list string * (string + unit) :=
  (calls ++ ["import rpy2"], inr tt).

(** A package loader that finds nothing, and an installer that fails. *)
Definition failing_importr (name : string) (calls : list string)
    : list string * (string + string) :=
  (calls ++ [("importr " ++ name)%string], inl ("there is no package called " ++ name)%string).

Definition failing_install (name : string) (calls : list string)
    : list string * (string + unit) :=
  (calls ++ [("install " ++ name)%string], inl "no internet").



(** * Properties *)

(** ** Dictionaries *)

Section dict_facts.
Context {V : Type}.
Implicit Types (d items : list (string * V)) (k : string) (v : V).

Lemma keys_app d1 d2 : keys (d1 ++ d2) = keys d1 ++ keys d2.
Proof. unfold keys. apply map_app. Qed.

Lemma dict_set_fresh k v d :
  k ∉ keys d -> dict_set k v d = d ++ [(k, v)].
Proof.
  induction d as [|[k' v'] d IH]; simpl; intros Hk; [done|].
  apply not_elem_of_cons in Hk as [Hne Hk].
  destruct (String.eqb_spec k k') as [->|_]; [done|].
  by rewrite IH.
Qed.

Lemma keys_dict_set k v d k' :
  k' ∈ keys (dict_set k v d) <-> k' = k \/ k' ∈ keys d.
Proof.
  induction d as [|[k0 v0] d IH]; simpl.
  - rewrite list_elem_of_singleton, elem_of_nil. tauto.
  - destruct (String.eqb_spec k k0) as [->|Hne]; simpl.
    + rewrite !elem_of_cons. tauto.
    + rewrite !elem_of_cons, IH. tauto.
Qed.

Lemma NoDup_keys_dict_set k v d :
  NoDup (keys d) -> NoDup (keys (dict_set k v d)).
Proof.
  induction d as [|[k0 v0] d IH]; simpl; intros Hd.
  - apply NoDup_singleton.
  - apply NoDup_cons in Hd as [Hk0 Hd].
    destruct (String.eqb_spec k k0) as [->|Hne]; simpl.
    + by apply NoDup_cons.
    + apply NoDup_cons. split; [|by apply IH].
      rewrite keys_dict_set. intros [->|?]; done.
Qed.

Lemma fold_dict_set_keys items d k :
  k ∈ keys (fold_left (fun d kv => dict_set (fst kv) (snd kv) d) items d)
  <-> k ∈ keys d \/ k ∈ map fst items.
Proof.
  revert d. induction items as [|[k0 v0] items IH]; simpl; intros d.
  - rewrite elem_of_nil. tauto.
  - rewrite IH, keys_dict_set, elem_of_cons. tauto.
Qed.

Lemma fold_dict_set_NoDup items d :
  NoDup (keys d) ->
  NoDup (keys (fold_left (fun d kv => dict_set (fst kv) (snd kv) d) items d)).
Proof.
  revert d. induction items as [|[k0 v0] items IH]; simpl; intros d Hd; [done|].
  by apply IH, NoDup_keys_dict_set.
Qed.

Lemma fold_dict_set_distinct items d :
  NoDup (keys d ++ map fst items) ->
  fold_left (fun d kv => dict_set (fst kv) (snd kv) d) items d = d ++ items.
Proof.
  revert d. induction items as [|[k0 v0] items IH]; simpl; intros d Hd.
  - by rewrite app_nil_r.
  - rewrite dict_set_fresh.
    + rewrite IH; [by rewrite <- app_assoc|].
      rewrite keys_app. simpl. by rewrite <- app_assoc.
    + apply NoDup_app in Hd as (_ & Hd & _). intros Hin.
      apply (Hd _ Hin). left.
Qed.

(** The keys of [dict(items)] are the keys of the items. *)
Lemma keys_dict items k : k ∈ keys (dict items) <-> k ∈ map fst items.
Proof. unfold dict. rewrite fold_dict_set_keys. simpl. rewrite elem_of_nil. tauto. Qed.

Lemma NoDup_keys_dict items : NoDup (keys (dict items)).
Proof. apply fold_dict_set_NoDup. constructor. Qed.

(** Items with pairwise distinct keys make the dict that lists them. *)
Lemma dict_distinct items : NoDup (map fst items) -> dict items = items.
Proof. intros H. unfold dict. by rewrite fold_dict_set_distinct. Qed.

Lemma dict_get_app_fresh k v d1 d2 :
  k ∉ keys d1 -> dict_get k (d1 ++ (k, v) :: d2) = Some v.
Proof.
  induction d1 as [|[k' v'] d1 IH]; simpl; intros Hk.
  - by rewrite String.eqb_refl.
  - apply not_elem_of_cons in Hk as [Hne Hk].
    destruct (String.eqb_spec k k') as [->|_]; [done|]. by apply IH.
Qed.

Lemma dict_alter_app_fresh (f : V -> V) k v d1 d2 :
  k ∉ keys d1 ->
  dict_alter f k (d1 ++ (k, v) :: d2) = d1 ++ (k, f v) :: d2.
Proof.
  induction d1 as [|[k' v'] d1 IH]; simpl; intros Hk.
  - by rewrite String.eqb_refl.
  - apply not_elem_of_cons in Hk as [Hne Hk].
    destruct (String.eqb_spec k k') as [->|_]; [done|]. by rewrite IH.
Qed.

Lemma keys_dict_alter (f : V -> V) k d : keys (dict_alter f k d) = keys d.
Proof.
  induction d as [|[k' v'] d IH]; simpl; [done|].
  destruct (String.eqb k k'); simpl; [done|]. by rewrite IH.
Qed.

Lemma dict_get_is_Some k d : k ∈ keys d -> is_Some (dict_get k d).
Proof.
  induction d as [|[k' v'] d IH]; simpl; intros Hk.
  - by apply elem_of_nil in Hk.
  - destruct (String.eqb_spec k k') as [->|Hne]; [by eexists|].
    apply elem_of_cons in Hk as [?|?]; [done|]. by apply IH.
Qed.
End dict_facts.

Lemma zip_names_vectors (r : r_dataframe) : zip (names r) (vectors r) = r.
Proof.
  induction r as [|[k v] r IH]; simpl; [done|]. f_equal. exact IH.
Qed.

(** The sentinels that [is_r_na] knows are those that the client records. *)
Lemma is_r_na_na_types (value : robj) :
  is_r_na value = true <-> value ∈ map snd na_types.
Proof.
  unfold na_types. simpl. rewrite !elem_of_cons, elem_of_nil.
  destruct value; simpl; split; intros H; try discriminate; try tauto;
    repeat (destruct H as [H|H]; try discriminate); done.
Qed.

(** ** Frames *)

Lemma index_pos_seq (s n j : nat) :
  s <= j < s + n -> index_pos j (seq s n) = Some (j - s).
Proof.
  revert s. induction n as [|n IH]; intros s Hj; simpl; [lia|].
  destruct (Nat.eqb_spec s j) as [->|Hne].
  - f_equal. lia.
  - rewrite IH by lia. simpl. f_equal. lia.
Qed.

(** Writing a cell that the frame has: no row and no column is added, and
    only the column of that name changes. *)
Lemma loc_set_in_range (n j : nat) (col_name : string) (x : pdcell)
    (col : list pdcell) (A B : list (string * list pdcell)) (df : DataFrame) :
  index df = seq 0 n -> j < n ->
  columns df = A ++ (col_name, col) :: B -> col_name ∉ keys A ->
  loc_set j col_name x df
  = mkDataFrame (seq 0 n) (A ++ (col_name, <[j := x]> col) :: B).
Proof.
  intros Hidx Hj Hcols Hfresh. unfold loc_set.
  rewrite Hidx, index_pos_seq by lia. simpl.
  rewrite Hcols, dict_get_app_fresh by done. simpl.
  rewrite Hidx, index_pos_seq by lia. rewrite Hcols.
  rewrite dict_alter_app_fresh by done. by rewrite Nat.sub_0_r.
Qed.

(** Writing a cell that the frame has keeps the row labels and the column
    names, whatever the frame holds. *)
Lemma loc_set_shape (n j : nat) (col_name : string) (x : pdcell) (df : DataFrame) :
  index df = seq 0 n -> j < n -> col_name ∈ column_names df ->
  index (loc_set j col_name x df) = seq 0 n
  /\ column_names (loc_set j col_name x df) = column_names df.
Proof.
  intros Hidx Hj Hin. unfold loc_set.
  rewrite Hidx, index_pos_seq by lia. simpl.
  destruct (dict_get_is_Some _ _ Hin) as [col ->]. simpl.
  rewrite Hidx, index_pos_seq by lia. simpl. split; [done|].
  unfold column_names. simpl. apply keys_dict_alter.
Qed.

Lemma add_log_nil {W} (st : state W) : add_log st [] = st.
Proof. destruct st. unfold add_log. simpl. by rewrite app_nil_r. Qed.

Lemma add_log_app {W} (st : state W) (l1 l2 : list string) :
  add_log (add_log st l1) l2 = add_log st (l1 ++ l2).
Proof. unfold add_log. simpl. by rewrite app_assoc. Qed.

Lemma column_check_safe vec_type check marker :
  column_check vec_type = Some (check, marker) -> safe_check check.
Proof.
  unfold column_check. intros H value code.
  repeat match type of H with
         | (if ?b then _ else _) = _ => destruct b
         end; inversion H; subst; clear H;
    try discriminate.
  unfold factor_check. destruct value; discriminate.
Qed.

Section conversion_facts.
Context {W : Type}.
Implicit Types (st : state W) (df : DataFrame).

Lemma check_cell_eq check marker col_name j value df st :
  safe_check check ->
  check_cell check marker col_name j value df st
  = (add_log st (cell_log check col_name j value),
     Ok (match check value with
         | Ok true => loc_set j col_name marker df
         | _ => df
         end)).
Proof.
  intros Hsafe.
  unfold check_cell, try_except, bind, lift, ret, print, cell_log.
  destruct (check value) as [[|]|[msg|code]] eqn:E; simpl.
  - by rewrite add_log_nil.
  - by rewrite add_log_nil.
  - done.
  - by destruct (Hsafe value code).
Qed.

Lemma for_range_spec check marker col_name A B :
  safe_check check -> col_name ∉ keys A ->
  forall rest done j n st,
    j = length done -> n = j + length rest ->
    for_range (check_cell check marker col_name) j rest
      (mkDataFrame (seq 0 n) (A ++ (col_name, done ++ map Value rest) :: B)) st
    = (add_log st (range_log check col_name j rest),
       Ok (mkDataFrame (seq 0 n)
             (A ++ (col_name, done ++ map (convert_cell check marker) rest) :: B))).
Proof.
  intros Hsafe Hfresh.
  induction rest as [|value rest IH]; intros done j n st Hj Hn; simpl.
  - by rewrite add_log_nil.
  - unfold bind at 1. rewrite check_cell_eq by done.
    assert (Hstep : forall c,
      A ++ (col_name, done ++ c :: map Value rest) :: B
      = A ++ (col_name, (done ++ [c]) ++ map Value rest) :: B).
    { intros c. by rewrite <- app_assoc. }
    assert (Hdf :
      match check value with
      | Ok true => loc_set j col_name marker
                     (mkDataFrame (seq 0 n)
                        (A ++ (col_name, done ++ Value value :: map Value rest) :: B))
      | _ => mkDataFrame (seq 0 n)
               (A ++ (col_name, done ++ Value value :: map Value rest) :: B)
      end
      = mkDataFrame (seq 0 n)
          (A ++ (col_name, (done ++ [convert_cell check marker value])
                             ++ map Value rest) :: B)).
    { unfold convert_cell.
      destruct (check value) as [[|]|e]; rewrite <- ?Hstep; try done.
      erewrite loc_set_in_range; [|done|simpl in Hn; lia|done|done].
      do 3 f_equal. subst j.
      replace (length done) with (length done + 0) at 1 by lia.
      by rewrite insert_app_r. }
    rewrite Hdf.
    rewrite (IH (done ++ [convert_cell check marker value]) (S j) n);
      [|rewrite length_app; simpl; lia|simpl in Hn; lia].
    rewrite add_log_app. by rewrite <- app_assoc.
Qed.

Lemma replace_in_column_spec col_name v A B n st :
  col_name ∉ keys A -> length (cells v) = n ->
  replace_in_column col_name v
    (mkDataFrame (seq 0 n) (A ++ (col_name, map Value (cells v)) :: B)) st
  = (add_log st (column_log col_name v),
     Ok (mkDataFrame (seq 0 n) (A ++ (col_name, convert_cells v) :: B))).
Proof.
  intros Hfresh Hlen.
  unfold replace_in_column, column_log, convert_cells.
  pose proof (column_check_safe (rclass_head v)) as Hsafe.
  unfold column_check in *.
  repeat match goal with
         | |- context [if ?b then _ else _] => destruct b
         end;
    try (apply (for_range_spec _ _ _ A B) with (done := []);
         [by eapply Hsafe|done|done|simpl; lia]).
  unfold ret. by rewrite add_log_nil.
Qed.

Lemma for_columns_spec n :
  forall (rest pre : r_dataframe) st,
    Forall (fun kv => length (cells (snd kv)) = n) rest ->
    NoDup (names pre ++ names rest) ->
    for_columns rest
      (mkDataFrame (seq 0 n) (map converted_column pre ++ map raw_column rest)) st
    = (add_log st (frame_log rest),
       Ok (mkDataFrame (seq 0 n) (map converted_column (pre ++ rest)))).
Proof.
  induction rest as [|[col_name v] rest IH]; intros pre st Hlen Hnd; simpl.
  - unfold ret. by rewrite add_log_nil, !app_nil_r.
  - apply Forall_cons in Hlen as [Hv Hlen]. simpl in Hv.
    unfold bind at 1. unfold raw_column at 1. simpl.
    rewrite replace_in_column_spec; [|..|done].
    + replace (map converted_column pre ++ (col_name, convert_cells v) :: map raw_column rest)
        with (map converted_column (pre ++ [(col_name, v)]) ++ map raw_column rest).
      * rewrite IH; [|done|].
        -- rewrite add_log_app. by rewrite <- app_assoc.
        -- unfold names in *. rewrite map_app. simpl. by rewrite <- app_assoc.
      * rewrite map_app. simpl. by rewrite <- app_assoc.
    + apply NoDup_app in Hnd as (_ & Hnd & _). intros Hin.
      apply (Hnd col_name).
      * unfold keys in Hin. rewrite map_map in Hin. simpl in Hin. exact Hin.
      * simpl. left.
Qed.
End conversion_facts.

(** ** The frame that [pd.DataFrame] builds *)

Lemma pd_DataFrame_Ok (data : list (string * r_vector)) (df : DataFrame) :
  pd_DataFrame data = Ok df ->
  exists n, df = mkDataFrame (seq 0 n) (map raw_column data)
            /\ Forall (fun kv => length (cells (snd kv)) = n) data.
Proof.
  unfold pd_DataFrame. destruct data as [|[k0 v0] data].
  - intros [= <-]. exists 0. by split.
  - destruct (forallb _ _) eqn:Hall; [|discriminate].
    intros [= <-]. exists (length (cells v0)). split; [done|].
    rewrite forallb_forall in Hall. apply Forall_forall. intros kv Hin.
    apply Nat.eqb_eq, Hall. by apply list_elem_of_In.
Qed.

Lemma to_pandas_distinct (r : r_dataframe) (df : DataFrame) :
  NoDup (names r) ->
  pd_DataFrame (dict (zip (names r) (vectors r))) = Ok df ->
  exists n, df = mkDataFrame (seq 0 n) (map raw_column r)
            /\ Forall (fun kv => length (cells (snd kv)) = n) r.
Proof.
  intros Hnd. rewrite zip_names_vectors, dict_distinct by done.
  apply pd_DataFrame_Ok.
Qed.

(** On a data frame with pairwise distinct column names, the loops of
    [_replace_r_na_with_pandas_na] compute [converted_column] on every
    column and print [frame_log]; no exception leaves the function. *)
Lemma replace_spec {W} (r : r_dataframe) (df : DataFrame) (st : state W) :
  NoDup (names r) ->
  pd_DataFrame (dict (zip (names r) (vectors r))) = Ok df ->
  exists n,
    Forall (fun kv => length (cells (snd kv)) = n) r
    /\ _replace_r_na_with_pandas_na df r st
       = (add_log st (frame_log r),
          Ok (mkDataFrame (seq 0 n) (map converted_column r))).
Proof.
  intros Hnd Hdf. destruct (to_pandas_distinct r df Hnd Hdf) as (n & -> & Hlen).
  exists n. split; [done|].
  unfold _replace_r_na_with_pandas_na. rewrite zip_names_vectors.
  apply (for_columns_spec n r [] st Hlen). by simpl.
Qed.




(** ** Claims about the reconciliation of missing values *)







(** ** Column names *)

Lemma keys_enlarged (cols : list (string * list pdcell)) :
  keys (map (fun kc => (fst kc, snd kc ++ [np_nan])) cols) = keys cols.
Proof. unfold keys. rewrite map_map. by apply map_ext. Qed.

(** Writing into a column that the frame has adds no column, whatever the
    row label. *)
Lemma loc_set_column_names (j : nat) (col_name : string) (x : pdcell) (df : DataFrame) :
  col_name ∈ column_names df ->
  column_names (loc_set j col_name x df) = column_names df.
Proof.
  intros Hin. unfold loc_set.
  set (df1 := match index_pos j (index df) with Some _ => df | None => _ end).
  assert (H1 : column_names df1 = column_names df).
  { subst df1. destruct (index_pos j (index df)); [done|].
    unfold column_names. simpl. apply keys_enlarged. }
  assert (Hin1 : col_name ∈ keys (columns df1)) by (by rewrite <- H1 in Hin).
  destruct (dict_get_is_Some _ _ Hin1) as [col ->].
  destruct (index_pos j (index df1)); [|done].
  unfold column_names in *. simpl. by rewrite keys_dict_alter.
Qed.

Section shape_facts.
Context {W : Type}.
Implicit Types (st : state W) (df : DataFrame).

Lemma check_cell_keeps_names check marker col_name j value df :
  safe_check check -> col_name ∈ column_names df ->
  @keeps_names W df (check_cell check marker col_name j value df).
Proof.
  intros Hsafe Hin st. rewrite check_cell_eq by done.
  eexists _, _. split; [done|].
  destruct (check value) as [[|]|e]; try done.
  by apply loc_set_column_names.
Qed.

Lemma for_range_keeps_names check marker col_name :
  safe_check check ->
  forall rest j df, col_name ∈ column_names df ->
    @keeps_names W df (for_range (check_cell check marker col_name) j rest df).
Proof.
  intros Hsafe. induction rest as [|value rest IH]; intros j df Hin st; simpl.
  - by eexists _, _.
  - unfold bind.
    destruct (check_cell_keeps_names check marker col_name j value df Hsafe Hin st)
      as (st1 & df1 & -> & H1).
    destruct (IH (S j) df1 ltac:(by rewrite H1) st1) as (st2 & df2 & -> & H2).
    eexists _, _. split; [done|]. by rewrite H2.
Qed.

Lemma replace_in_column_keeps_names col_name v df :
  col_name ∈ column_names df ->
  @keeps_names W df (replace_in_column col_name v df).
Proof.
  intros Hin. unfold replace_in_column.
  pose proof (column_check_safe (rclass_head v)) as Hsafe.
  unfold column_check in Hsafe.
  repeat match goal with
         | |- context [if ?b then _ else _] => destruct b
         end;
    try (apply for_range_keeps_names; [by eapply Hsafe|done]).
  intros st. by eexists _, _.
Qed.

Lemma for_columns_keeps_names :
  forall (cols : list (string * r_vector)) df,
    Forall (fun kv => fst kv ∈ column_names df) cols ->
    @keeps_names W df (for_columns cols df).
Proof.
  induction cols as [|[col_name v] cols IH]; intros df Hin st; simpl.
  - by eexists _, _.
  - apply Forall_cons in Hin as [Hin Hrest]. simpl in Hin.
    unfold bind.
    destruct (replace_in_column_keeps_names col_name v df Hin st)
      as (st1 & df1 & -> & H1).
    destruct (IH df1 ltac:(by rewrite H1) st1) as (st2 & df2 & -> & H2).
    eexists _, _. split; [done|]. by rewrite H2.
Qed.

(** Whatever the column names of [r], the conversion of the frame built
    from [r] returns, and with the column names it was given. *)
Lemma replace_keeps_names (r : r_dataframe) df :
  pd_DataFrame (dict (zip (names r) (vectors r))) = Ok df ->
  @keeps_names W df (_replace_r_na_with_pandas_na df r).
Proof.
  intros Hdf. unfold _replace_r_na_with_pandas_na.
  rewrite zip_names_vectors in *.
  apply for_columns_keeps_names.
  destruct (pd_DataFrame_Ok _ _ Hdf) as (n & -> & _).
  apply Forall_forall. intros [col_name v] Hin.
  unfold column_names. simpl.
  unfold keys. rewrite map_map. simpl.
  change (map (fun x : string * r_vector => fst x) (dict r)) with (keys (dict r)).
  apply keys_dict. change (col_name ∈ fst <$> r).
  by apply (list_elem_of_fmap_2 fst r (col_name, v)).
Qed.
End shape_facts.

Lemma column_names_pd_DataFrame data df :
  pd_DataFrame data = Ok df -> column_names df = keys data.
Proof.
  intros Hdf. destruct (pd_DataFrame_Ok _ _ Hdf) as (n & -> & _).
  unfold column_names, keys. simpl. rewrite map_map. by apply map_ext.
Qed.

Lemma pd_DataFrame_names_preserved (r : r_dataframe) (df : DataFrame) :
  pd_DataFrame (dict (zip (names r) (vectors r))) = Ok df ->
  names_preserved r df.
Proof.
  intros Hdf. rewrite zip_names_vectors in Hdf. unfold names_preserved.
  rewrite (column_names_pd_DataFrame _ _ Hdf). repeat split.
  - by apply keys_dict.
  - by apply keys_dict.
  - apply NoDup_keys_dict.
  - intros Hnd. by rewrite dict_distinct.
Qed.

Lemma Forall_dict_set {V} (Q : V -> Prop) k v (d : list (string * V)) :
  Q v -> Forall (fun kv => Q (snd kv)) d ->
  Forall (fun kv => Q (snd kv)) (dict_set k v d).
Proof.
  intros Hv. induction d as [|[k' v'] d IH]; simpl; intros Hd.
  - by repeat constructor.
  - apply Forall_cons in Hd as [Hv' Hd].
    destruct (String.eqb k k'); apply Forall_cons; split; auto.
Qed.

Lemma Forall_dict {V} (Q : V -> Prop) (items : list (string * V)) :
  Forall (fun kv => Q (snd kv)) items ->
  Forall (fun kv => Q (snd kv)) (dict items).
Proof.
  intros Hitems. unfold dict.
  assert (Hacc : Forall (fun kv : string * V => Q (snd kv)) []) by constructor.
  revert Hacc. generalize (@nil (string * V)).
  induction Hitems as [|[k v] items Hv Hitems IH]; simpl; intros d Hd; [done|].
  apply IH. by apply Forall_dict_set.
Qed.

Lemma pd_DataFrame_rectangular (r : r_dataframe) :
  rectangular r ->
  exists df, pd_DataFrame (dict (zip (names r) (vectors r))) = Ok df.
Proof.
  intros [n Hlen]. rewrite zip_names_vectors.
  apply (Forall_dict (fun v => length (cells v) = n)) in Hlen.
  unfold pd_DataFrame. destruct (dict r) as [|[k0 v0] data]; [by eexists|].
  assert (Hn : length (cells v0) = n).
  { apply Forall_cons in Hlen as [H _]. exact H. }
  rewrite Hn.
  assert (Hall : forallb (fun kv : string * r_vector =>
                            Nat.eqb (length (cells (snd kv))) n) ((k0, v0) :: data) = true).
  { apply forallb_forall. intros kv Hin. apply Nat.eqb_eq.
    rewrite Forall_forall in Hlen. apply Hlen. by apply list_elem_of_In. }
  rewrite Hall. by eexists.
Qed.

(** ** Running the monad *)

Lemma bind_Ok {W A B} (m : M W A) (k : A -> M W B) (st st' : state W) (a : A) :
  m st = (st', Ok a) -> bind m k st = k a st'.
Proof. intros H. unfold bind. by rewrite H. Qed.


Lemma external_returns {W A} (f : W -> W * (string + A)) (st : state W) (w' : W) (a : A) :
  f (world st) = (w', inr a) ->
  external f st = (mkState w' (environ st) (stdout st), Ok a).
Proof. intros H. unfold external. by rewrite H. Qed.


(** ** Claims about the fetching methods *)

(** C3, counterexample.  A data frame with the columns [q], [id], [q]:
    the dict built from it has the keys [q] and [id], so the DataFrame of
    [get_available_surveys] has two columns where the data frame had three. *)
Lemma every_source_column_appears_fails : ~ every_source_column_appears.
Proof.
  intros Hclaim.
  destruct (Hclaim (fun _ w => (w, inr repeated_name_frame))) as [Hget _].
  specialize (Hget 200%Z (mkState tt [] []) (mkState tt [] []) tt repeated_name_frame
                (mkDataFrame [0] [ ("q", [Value (PyStr "b")]); ("id", [Value (PyInt 7)]) ])
                eq_refl eq_refl).
  vm_compute in Hget. discriminate.
Qed.

(** C3, amended.  For the data frame that the R call of
    [get_available_surveys], of [filter_surveys] or of
    [download_survey_data] returns, the DataFrame that the method produces
    has the column names of the data frame, unchanged and each once; when
    the names of the data frame are pairwise distinct it has exactly its
    columns, name for name in the same order.  The method returns a
    DataFrame whenever the columns have one length. *)
Theorem column_names_preserved {W} (robjects_r : string -> W -> W * (string + r_dataframe)) :
  (forall limit,
     converts_result robjects_r ("browse_surveys(" ++ str_of_Z limit ++ ")")
       (get_available_surveys robjects_r limit))
  /\ (forall keyword,
        converts_result robjects_r (filter_surveys_code keyword)
          (filter_surveys robjects_r keyword))
  /\ (forall survey_id,
        converts_result robjects_r (download_survey_data_code survey_id)
          (download_survey_data robjects_r survey_id)).
Proof.
  split; [|split].
  - intros limit st w' r Hr. unfold get_available_surveys.
    rewrite (bind_Ok _ _ _ _ _ (external_returns _ _ _ _ Hr)).
    unfold to_pandas, bind, lift, ret. split.
    + intros Hrect. destruct (pd_DataFrame_rectangular r Hrect) as [df ->].
      by eexists _, _.
    + intros st' df.
      destruct (pd_DataFrame _) as [df0|e] eqn:Hdf; [|discriminate].
      intros [= _ <-]. by apply pd_DataFrame_names_preserved.
  - intros keyword st w' r Hr. unfold filter_surveys.
    rewrite (bind_Ok _ _ _ _ _ (external_returns _ _ _ _ Hr)).
    unfold to_pandas, lift. split.
    + intros Hrect. destruct (pd_DataFrame_rectangular r Hrect) as [df ->].
      by eexists _, _.
    + intros st' df [= _ Hdf]. by apply pd_DataFrame_names_preserved.
  - intros survey_id st w' r Hr. unfold download_survey_data.
    rewrite (bind_Ok _ _ _ _ _ (external_returns _ _ _ _ Hr)).
    unfold to_pandas, lift. unfold bind at 1. split.
    + intros Hrect. destruct (pd_DataFrame_rectangular r Hrect) as [df Hdf].
      rewrite Hdf. unfold bind, ret.
      destruct (replace_keeps_names r df Hdf (mkState w' (environ st) (stdout st)))
        as (st1 & df1 & -> & _).
      by eexists _, _.
    + intros st' df'.
      destruct (pd_DataFrame _) as [df|e] eqn:Hdf; [|discriminate].
      unfold bind, ret.
      destruct (replace_keeps_names r df Hdf (mkState w' (environ st) (stdout st)))
        as (st1 & df1 & -> & Hnames).
      intros [= _ <-]. unfold names_preserved. rewrite Hnames.
      by apply pd_DataFrame_names_preserved.
Qed.

(** ** Claims about the bulk fetch *)

Section bulk_facts.
Context {W : Type}.
Variable robjects_r : string -> W -> W * (string + r_dataframe).
Implicit Types (st : state W) (d : gmap Z (option DataFrame)).

(** A download that raises raises an [Exception]: nothing in it ends the
    process. *)
Lemma download_survey_data_raises survey_id st st' e :
  download_survey_data robjects_r survey_id st = (st', Raise e) ->
  exists msg, e = Exception msg.
Proof.
  unfold download_survey_data, bind, external, to_pandas, lift, ret.
  destruct (robjects_r _ _) as [w' [msg|r]]; [intros [= _ <-]; by eexists|].
  destruct (pd_DataFrame _) as [df|e0] eqn:Hdf.
  - destruct (replace_keeps_names r df Hdf (mkState w' (environ st) (stdout st)))
      as (st1 & df1 & -> & _). discriminate.
  - intros [= _ <-]. unfold pd_DataFrame in Hdf.
    destruct (dict _) as [|[k0 v0] data]; [discriminate|].
    destruct (forallb _ _); [discriminate|]. injection Hdf as <-. by eexists.
Qed.

(** One turn of the loop always returns, with an entry for the id; the
    entry is [None] when the download raised. *)
Lemma download_one_spec survey_id d st :
  exists st' entry,
    download_one robjects_r survey_id d st = (st', Ok (<[survey_id := entry]> d))
    /\ forall st_fail e,
         download_survey_data robjects_r survey_id (add_log st [downloading survey_id])
         = (st_fail, Raise e) ->
         entry = None.
Proof.
  unfold download_one, try_except, bind at 1, print at 1.
  fold (add_log st [downloading survey_id]). unfold bind at 1.
  destruct (download_survey_data robjects_r survey_id _) as [st1 [df|e]] eqn:Hdl.
  - simpl. eexists _, (Some df). split; [done|]. intros ? ? [=].
  - destruct (download_survey_data_raises _ _ _ _ Hdl) as [msg ->].
    simpl. eexists _, None. by split.
Qed.

Lemma for_survey_ids_spec survey_ids :
  forall d st, exists st' d',
    for_survey_ids robjects_r survey_ids d st = (st', Ok d')
    /\ dom d' = dom d ∪ list_to_set survey_ids
    /\ forall k, k ∉ survey_ids -> d' !! k = d !! k.
Proof.
  induction survey_ids as [|survey_id rest IH]; intros d st; cbn [for_survey_ids].
  - eexists _, _. split; [done|]. split; [|done].
    rewrite list_to_set_nil. by rewrite (right_id_L ∅ (∪)).
  - destruct (download_one_spec survey_id d st) as (st1 & entry & H1 & _).
    rewrite (bind_Ok _ _ _ _ _ H1).
    destruct (IH (<[survey_id := entry]> d) st1) as (st2 & d2 & -> & Hdom & Hother).
    eexists _, _. split; [done|]. split.
    + rewrite Hdom, dom_insert_L, list_to_set_cons.
      rewrite (assoc_L (∪)). f_equal. apply (comm_L (∪)).
    + intros k Hk. apply not_elem_of_cons in Hk as [Hne Hk].
      rewrite (Hother k Hk). by apply lookup_insert_ne.
Qed.

Lemma for_survey_ids_app pre post d st st_pre d_pre :
  for_survey_ids robjects_r pre d st = (st_pre, Ok d_pre) ->
  for_survey_ids robjects_r (pre ++ post) d st
  = for_survey_ids robjects_r post d_pre st_pre.
Proof.
  revert d st. induction pre as [|survey_id pre IH]; intros d st; simpl.
  - by intros [= -> ->].
  - destruct (download_one_spec survey_id d st) as (st1 & entry & H1 & _).
    rewrite !(bind_Ok _ _ _ _ _ H1). apply IH.
Qed.

End bulk_facts.



(** ** Claims about the package manager *)

(** C6.  When the name is in the cache of the manager, [import_package]
    returns the handle stored there and leaves the manager, the R runtime
    and everything else as they were: nothing is imported or installed.
    And after a call that returned, a second call with the same name
    returns the same handle, again without touching anything. *)
Theorem cached_package_is_returned {W handle}
    (importr : string -> W -> W * (string + handle))
    (install_packages : string -> W -> W * (string + unit))
    (self : RPackageManager) (package_name : string) (st : state W) :
  (forall package,
     packages self !! package_name = Some package ->
     import_package importr install_packages self package_name st
     = (st, Ok (self, package)))
  /\ (forall st1 self1 package,
        import_package importr install_packages self package_name st
        = (st1, Ok (self1, package)) ->
        import_package importr install_packages self1 package_name st1
        = (st1, Ok (self1, package))).
Proof.
  assert (Hhit : forall (m : @RPackageManager handle) (s : state W) package,
            packages m !! package_name = Some package ->
            import_package importr install_packages m package_name s
            = (s, Ok (m, package))).
  { intros m s package Hin. unfold import_package. by rewrite Hin. }
  split; [apply Hhit|].
  intros st1 self1 package Hfirst. apply Hhit.
  unfold import_package in Hfirst.
  destruct (packages self !! package_name) as [cached|] eqn:Hcache.
  - by injection Hfirst as <- <- <-.
  - unfold bind, ret in Hfirst.
    destruct (try_except_all _ _ st) as [st2 [package2|e]]; [|discriminate].
    injection Hfirst as <- <- <-. simpl. apply lookup_insert_eq.
Qed.

(** ** Claims about the constructor *)

Section only_Exceptions_facts.
Context {W : Type}.

Lemma only_Exceptions_ret {A} (a : A) : @only_Exceptions W A (ret a).
Proof. intros st st' e [=]. Qed.

Lemma only_Exceptions_bind {A B} (m : M W A) (k : A -> M W B) :
  only_Exceptions m -> (forall a, only_Exceptions (k a)) -> only_Exceptions (bind m k).
Proof.
  intros Hm Hk st st' e. unfold bind.
  destruct (m st) as [st1 [a|e1]] eqn:Hrun.
  - apply Hk.
  - intros [= <- <-]. by eapply Hm.
Qed.

Lemma only_Exceptions_external {A} (f : W -> W * (string + A)) :
  only_Exceptions (external f).
Proof.
  intros st st' e. unfold external.
  destruct (f (world st)) as [w' [msg|a]]; intros [= _ <-]. by eexists.
Qed.

Lemma only_Exceptions_try_except_all {A} (body handler : M W A) :
  only_Exceptions handler -> only_Exceptions (try_except_all body handler).
Proof.
  intros Hh st st' e. unfold try_except_all.
  destruct (body st) as [st1 [a|e1]]; [intros [=]|apply Hh].
Qed.

Lemma only_Exceptions_import_package {handle}
    (importr : string -> W -> W * (string + handle))
    (install_packages : string -> W -> W * (string + unit))
    (self : RPackageManager) (package_name : string) :
  only_Exceptions (import_package importr install_packages self package_name).
Proof.
  unfold import_package. destruct (packages self !! package_name).
  - apply only_Exceptions_ret.
  - apply only_Exceptions_bind; [|intros; apply only_Exceptions_ret].
    apply only_Exceptions_try_except_all.
    apply only_Exceptions_bind; intros; apply only_Exceptions_external.
Qed.

(** The [try] block of the constructor raises nothing but [Exception]s. *)
Lemma init_body_raises {handle}
    (import_rpy2 : W -> W * (string + unit))
    (importr : string -> W -> W * (string + handle))
    (install_packages : string -> W -> W * (string + unit))
    (robjects_r : string -> W -> W * (string + r_dataframe))
    (oauth_token : option string) :
  only_Exceptions
    (init_body import_rpy2 importr install_packages robjects_r oauth_token).
Proof.
  unfold init_body, RPackageManager_init.
  repeat first
    [ apply only_Exceptions_ret
    | apply only_Exceptions_external
    | apply only_Exceptions_import_package
    | apply only_Exceptions_bind; [|intros]
    | match goal with
      | |- only_Exceptions (match ?x with _ => _ end) => destruct x
      end ].
Qed.
End only_Exceptions_facts.

(** C8.  When the [try] block of the constructor, which starts the embedded
    R runtime and loads the packages, raises an exception, the constructor
    prints its two lines and ends in [SystemExit(1)]: the process exits with
    status 1, no client is returned and the exception itself is not passed
    on. *)
Theorem init_failure_exits {W handle}
    (import_rpy2 : W -> W * (string + unit))
    (importr : string -> W -> W * (string + handle))
    (install_packages : string -> W -> W * (string + unit))
    (robjects_r : string -> W -> W * (string + r_dataframe))
    (os_path_exists : string -> W -> bool)
    (oauth_token r_home : option string) (st st0 st1 : state W) (e : exn) :
  init_preamble os_path_exists r_home st = (st0, Ok tt) ->
  init_body import_rpy2 importr install_packages robjects_r oauth_token st0
  = (st1, Raise e) ->
  __init__ import_rpy2 importr install_packages robjects_r os_path_exists
    oauth_token r_home st
  = (add_log st1 [ ("Error initializing R environment: " ++ str_exn e)%string;
                   "Make sure R is installed and R_HOME is correctly set" ],
     Raise (SystemExit 1)).
Proof.
  intros Hpre Hbody. unfold __init__.
  destruct (init_body_raises _ _ _ _ _ _ _ _ Hbody) as [msg ->].
  rewrite (bind_Ok _ _ _ _ _ Hpre). unfold try_except. rewrite Hbody.
  unfold init_handler, bind, print, sys_exit, raise, add_log. simpl.
  by rewrite <- app_assoc.
Qed.

(** ** The claims on a sample data frame *)

Example sample_conversion :
  _replace_r_na_with_pandas_na sample_pandas sample_frame quiet
  = (mkState tt []
       [ "Error checking NA for bad at index 0: '<=' not supported between instances of 'str' and 'int'" ],
     Ok (mkDataFrame [0; 1; 2]
           [ ("age", [Value (PyFloat (3 # 2)); np_nan; np_nan]);
             ("name", [Value (PyStr "a"); pd_NA; Value (PyStr "b")]);
             ("ok", [pd_NA; Value (PyBool true); Value (PyBool false)]);
             ("grp", [Value (PyInt 1); pd_NA; pd_NA]);
             ("bad", [Value (PyStr "x"); Value (PyInt 2); pd_NA]);
             ("z", [Value NA_Complex; Value (PyComplex 1 2); Value NA_Complex]) ])).
Proof. reflexivity. Qed.

(** Two columns of one name: the dict keeps the place of the first and the
    vector of the second, and the frame has one column. *)
Example repeated_name_collapses :
  pd_DataFrame (dict (zip (names repeated_name_frame) (vectors repeated_name_frame)))
  = Ok (mkDataFrame [0] [ ("q", [Value (PyStr "b")]); ("id", [Value (PyInt 7)]) ]).
Proof. reflexivity. Qed.

Ltac distinct_strings :=
  repeat (apply NoDup_cons; split;
          [rewrite ?not_elem_of_cons; repeat split; try discriminate; apply not_elem_of_nil|]);
  apply NoDup_nil_2.





(** ** The claims in a sample world *)

Lemma column_names_preserved_witness :
  sample_r (download_survey_data_code 1) 0 = (1, inr sample_frame)
  /\ rectangular sample_frame
  /\ exists st' df,
       download_survey_data sample_r 1 (mkState 0 [] []) = (st', Ok df)
       /\ names_preserved sample_frame df
       /\ column_names df = ["age"; "name"; "ok"; "grp"; "bad"; "z"].
Proof.
  assert (Hnd : NoDup (names sample_frame)) by (simpl; distinct_strings).
  assert (Hr : sample_r (download_survey_data_code 1) 0 = (1, inr sample_frame))
    by reflexivity.
  assert (Hrect : rectangular sample_frame).
  { exists 3. repeat (apply Forall_cons; split; [reflexivity|]). apply Forall_nil_2. }
  split; [exact Hr|]. split; [exact Hrect|].
  destruct (column_names_preserved sample_r) as (_ & _ & Hdl).
  destruct (Hdl 1%Z (mkState 0 [] []) 1 sample_frame Hr) as [Hreturns Hnames].
  destruct (Hreturns Hrect) as (st' & df & Hrun).
  exists st', df. split; [exact Hrun|]. split; [exact (Hnames st' df Hrun)|].
  destruct (Hnames st' df Hrun) as (_ & _ & Heq).
  rewrite (Heq Hnd). reflexivity.
Defined.


Example sample_bulk_fetch :
  exists st' df,
    download_multiple_surveys sample_r [1%Z; 2%Z] (mkState 0 [] [])
    = (st', Ok (<[2%Z := None]> (<[1%Z := Some df]> ∅)))
    /\ world st' = 2
    /\ stdout st' = [ "Downloading data for survey ID: 1";
                      "Error checking NA for bad at index 0: '<=' not supported between instances of 'str' and 'int'";
                      "Successfully downloaded data for survey ID: 1";
                      "Downloading data for survey ID: 2";
                      "Error downloading data for survey ID 2: survey not found" ].
Proof. eexists _, _. split; [reflexivity|]. split; reflexivity. Qed.

Lemma cached_package_is_returned_witness :
  packages sample_manager !! "utils" = Some "utils"
  /\ import_package sample_importr sample_install sample_manager "utils" (mkState [] [] [])
     = (mkState [] [] [], Ok (sample_manager, "utils")).
Proof.
  assert (Hin : packages sample_manager !! "utils" = Some "utils") by reflexivity.
  split; [exact Hin|].
  apply (proj1 (cached_package_is_returned sample_importr sample_install
                  sample_manager "utils" (mkState [] [] [])) "utils" Hin).
Defined.

(** A first import goes to the R runtime once; the second is served from
    the cache and the runtime is not called again. *)
Example sample_import_twice :
  exists self1,
    import_package sample_importr sample_install sample_manager "readxl" (mkState [] [] [])
    = (mkState ["importr readxl"] [] [], Ok (self1, "readxl"))
    /\ import_package sample_importr sample_install self1 "readxl"
         (mkState ["importr readxl"] [] [])
       = (mkState ["importr readxl"] [] [], Ok (self1, "readxl")).
Proof. eexists. split; reflexivity. Qed.

Lemma init_failure_exits_witness :
  init_preamble (fun _ (_ : list string) => true) (Some "/usr/lib/R") (mkState [] [] [])
  = (mkState [] [("R_HOME", "/usr/lib/R")] [], Ok tt)
  /\ init_body no_rpy2 sample_importr sample_install sample_r_options (Some "token")
       (mkState [] [("R_HOME", "/usr/lib/R")] [])
     = (mkState ["import rpy2"] [("R_HOME", "/usr/lib/R")] [],
        Raise (Exception "R_HOME not found"))
  /\ __init__ no_rpy2 sample_importr sample_install sample_r_options
       (fun _ _ => true) (Some "token") (Some "/usr/lib/R") (mkState [] [] [])
     = (mkState ["import rpy2"] [("R_HOME", "/usr/lib/R")]
          [ "Error initializing R environment: R_HOME not found";
            "Make sure R is installed and R_HOME is correctly set" ],
        Raise (SystemExit 1)).
Proof.
  split; [reflexivity|]. split; [reflexivity|].
  apply (init_failure_exits no_rpy2 sample_importr sample_install sample_r_options
           (fun _ _ => true) (Some "token") (Some "/usr/lib/R")
           (mkState [] [] []) (mkState [] [("R_HOME", "/usr/lib/R")] [])
           (mkState ["import rpy2"] [("R_HOME", "/usr/lib/R")] [])
           (Exception "R_HOME not found"));
    reflexivity.
Defined.

(** With R in place the constructor returns a client, the four packages are
    imported once each and the token is handed to R. *)
Example sample_init :
  exists client,
    __init__ (fun calls => (calls ++ ["import rpy2"], inr tt))
      sample_importr sample_install sample_r_options
      (fun _ _ => true) (Some "token") None (mkState [] [] [])
    = (mkState
         [ "import rpy2"; "importr utils"; "importr base"; "importr tidyverse";
           "importr ggplot2"; "importr surveymonkey"; "importr readxl";
           ("options(sm_oauth_token = " ++ dquote ++ "token" ++ dquote ++ ")")%string ]
         [("R_HOME", "C:/Program Files/R/R-4.3.3")] [],
       Ok client).
Proof. eexists. reflexivity. Qed.

(** * Further properties of the code *)

(** ** The conversion on any frame *)

Section conversion_log.
Context {W : Type}.
Implicit Types (st : state W) (df : DataFrame).

(** Whatever the frame holds, an inner loop returns and prints the lines of
    its failed checks. *)
Lemma for_range_log check marker col_name :
  safe_check check ->
  forall rest j df st, exists df',
    for_range (check_cell check marker col_name) j rest df st
    = (add_log st (range_log check col_name j rest), Ok df').
Proof.
  intros Hsafe. induction rest as [|value rest IH]; intros j df st; simpl.
  - eexists. by rewrite add_log_nil.
  - unfold bind. rewrite check_cell_eq by done.
    destruct (IH (S j) (match check value with
                        | Ok true => loc_set j col_name marker df
                        | _ => df
                        end) (add_log st (cell_log check col_name j value)))
      as [df' ->].
    exists df'. by rewrite add_log_app.
Qed.

Lemma replace_in_column_log col_name v df st :
  exists df',
    replace_in_column col_name v df st = (add_log st (column_log col_name v), Ok df').
Proof.
  unfold replace_in_column, column_log.
  pose proof (column_check_safe (rclass_head v)) as Hsafe.
  unfold column_check in *.
  repeat match goal with
         | |- context [if ?b then _ else _] => destruct b
         end;
    try (apply for_range_log; by eapply Hsafe).
  exists df. unfold ret. by rewrite add_log_nil.
Qed.

Lemma for_columns_log (cols : list (string * r_vector)) :
  forall df st, exists df',
    for_columns cols df st = (add_log st (frame_log cols), Ok df').
Proof.
  induction cols as [|[col_name v] cols IH]; intros df st; simpl.
  - exists df. unfold ret. by rewrite add_log_nil.
  - unfold bind. destruct (replace_in_column_log col_name v df st) as [df1 ->].
    destruct (IH df1 (add_log st (column_log col_name v))) as [df' ->].
    exists df'. by rewrite add_log_app.
Qed.
End conversion_log.








(** ** What the dict of columns holds *)

Section dict_lookup_facts.
Context {V : Type}.
Implicit Types (d items : list (string * V)) (k : string) (v : V).





End dict_lookup_facts.





Lemma keys_converted_columns (r : r_dataframe) :
  keys (map converted_column r) = names r.
Proof. induction r as [|[name v] r IH]; simpl; [done|]. by f_equal. Qed.

(** X5.  End to end: when R returns a data frame with pairwise distinct
    column names whose columns have [n] cells each, [download_survey_data]
    returns a DataFrame with the rows 0 to n-1, the columns of the data
    frame in their order, and [n] cells in every column: the reconciliation
    adds and drops no row and no column.  Only the world of the R call
    and standard output change. *)
Theorem download_survey_data_shape {W}
    (robjects_r : string -> W -> W * (string + r_dataframe))
    (survey_id : Z) (st : state W) (w' : W) (r : r_dataframe) (n : nat) :
  robjects_r (download_survey_data_code survey_id) (world st) = (w', inr r) ->
  NoDup (names r) ->
  Forall (fun kv => length (cells (snd kv)) = n) r ->
  exists df lines,
    download_survey_data robjects_r survey_id st
    = (mkState w' (environ st) (stdout st ++ lines), Ok df)
    /\ index df = seq 0 (match r with [] => 0 | _ => n end)
    /\ column_names df = names r
    /\ Forall (fun kc => length (snd kc) = n) (columns df).
Proof.
  intros Hr Hnd Hlen. unfold download_survey_data.
  rewrite (bind_Ok _ _ _ _ _ (external_returns _ _ _ _ Hr)).
  destruct (pd_DataFrame_rectangular r (ex_intro _ n Hlen)) as [df0 Hdf].
  unfold to_pandas, lift. unfold bind at 1. rewrite Hdf.
  destruct (replace_spec r df0 (mkState w' (environ st) (stdout st)) Hnd Hdf)
    as (n' & Hlen' & Hrun).
  assert (Hidx : seq 0 n' = seq 0 (match r with [] => 0 | _ => n end)).
  { destruct r as [|kv r].
    - simpl in Hdf. injection Hdf as <-.
      unfold _replace_r_na_with_pandas_na in Hrun. simpl in Hrun.
      unfold ret in Hrun. by injection Hrun as _ <-.
    - apply Forall_cons in Hlen as [E _]. apply Forall_cons in Hlen' as [E' _].
      by rewrite <- E, <- E'. }
  unfold bind, ret. rewrite Hrun. simpl.
  eexists _, _. split; [reflexivity|]. simpl.
  split; [exact Hidx|split].
  - apply keys_converted_columns.
  - apply Forall_forall. intros kc Hin.
    apply list_elem_of_In, in_map_iff in Hin as ([name v] & <- & Hin).
    apply list_elem_of_In in Hin.
    rewrite Forall_forall in Hlen. specialize (Hlen _ Hin). simpl in *.
    unfold convert_cells.
    destruct (column_check (rclass_head v)) as [[check marker]|];
      by rewrite length_map.
Qed.

(** ** Steps of a computation *)

Lemma bind_Ok_inv {W A B} (m : M W A) (k : A -> M W B) (st st' : state W) (b : B) :
  bind m k st = (st', Ok b) ->
  exists st1 a, m st = (st1, Ok a) /\ k a st1 = (st', Ok b).
Proof.
  unfold bind. destruct (m st) as [st1 [a|e]]; [|discriminate].
  intros H. by exists st1, a.
Qed.

Section steps_facts.
Context {W : Type} (R : state W -> state W -> Prop).
Hypothesis R_refl : forall st, R st st.
Hypothesis R_trans : forall st1 st2 st3, R st1 st2 -> R st2 st3 -> R st1 st3.

Lemma steps_lift {A} (r : result A) : steps R (@lift W A r).
Proof. intros st st' r' [= <- _]. apply R_refl. Qed.

Lemma steps_ret {A} (a : A) : steps R (@ret W A a).
Proof. apply (steps_lift (Ok a)). Qed.


Lemma steps_bind {A B} (m : M W A) (k : A -> M W B) :
  steps R m -> (forall a, steps R (k a)) -> steps R (bind m k).
Proof.
  intros Hm Hk st st' r. unfold bind.
  destruct (m st) as [st1 [a|e]] eqn:Hrun.
  - intros Hka. eapply R_trans; [by eapply Hm|by eapply Hk].
  - intros [= <- _]. by eapply Hm.
Qed.


End steps_facts.



Lemma stdout_grows_refl {W} (st : state W) : stdout_grows st st.
Proof. exists []. by rewrite app_nil_r. Qed.

Lemma stdout_grows_trans {W} (st1 st2 st3 : state W) :
  stdout_grows st1 st2 -> stdout_grows st2 st3 -> stdout_grows st1 st3.
Proof.
  intros [l1 H1] [l2 H2]. exists (l1 ++ l2). by rewrite H2, H1, app_assoc.
Qed.




Lemma external_stdout_grows {W A} (f : W -> W * (string + A)) :
  steps stdout_grows (external f).
Proof.
  intros st st' r. unfold external.
  destruct (f (world st)) as [w' [msg|a]]; intros [= <- _];
    exists []; simpl; by rewrite app_nil_r.
Qed.

(** ** Further properties of the package manager *)

Lemma import_package_Ok {W handle}
    (importr : string -> W -> W * (string + handle))
    (install_packages : string -> W -> W * (string + unit))
    (self self' : RPackageManager) (package_name : string) (package : handle)
    (st st' : state W) :
  import_package importr install_packages self package_name st
  = (st', Ok (self', package)) ->
  packages self' !! package_name = Some package
  /\ (forall name h, packages self !! name = Some h -> packages self' !! name = Some h)
  /\ dom (packages self') = {[package_name]} ∪ dom (packages self)
  /\ utils self' = utils self
  /\ base self' = base self.
Proof.
  unfold import_package.
  destruct (packages self !! package_name) as [cached|] eqn:Hcache.
  - intros [= <- <- <-]. repeat split; try done.
    apply set_eq. intros name. rewrite elem_of_union, elem_of_singleton.
    split; [auto|]. intros [->|H]; [|done]. apply elem_of_dom. by eexists.
  - unfold bind, ret.
    destruct (try_except_all _ _ st) as [st1 [package1|e]]; [|discriminate].
    intros [= <- <- <-]. simpl. repeat split.
    + apply lookup_insert_eq.
    + intros name h Hname. rewrite lookup_insert_ne; [done|]. congruence.
    + apply dom_insert_L.
Qed.

Lemma RPackageManager_init_Ok {W handle}
    (importr : string -> W -> W * (string + handle))
    (self : RPackageManager) (st st' : state W) :
  RPackageManager_init importr st = (st', Ok self) ->
  packages self = <["base" := base self]> (<["utils" := utils self]> ∅).
Proof.
  unfold RPackageManager_init. intros Hrun.
  apply bind_Ok_inv in Hrun as (st1 & u & _ & Hrun).
  apply bind_Ok_inv in Hrun as (st2 & b & _ & Hrun).
  by injection Hrun as _ <-.
Qed.

(** X6.  A call of [import_package] that returns leaves the package in the
    cache under its name, with the handle it returned; every package that
    was in the cache is still there with its handle; the cache has gained
    at most that one name; and the handles of [utils] and [base] are
    untouched. *)
Theorem import_package_extends_cache {W handle}
    (importr : string -> W -> W * (string + handle))
    (install_packages : string -> W -> W * (string + unit))
    (self self' : RPackageManager) (package_name : string) (package : handle)
    (st st' : state W) :
  import_package importr install_packages self package_name st
  = (st', Ok (self', package)) ->
  packages self' !! package_name = Some package
  /\ (forall name h, packages self !! name = Some h -> packages self' !! name = Some h)
  /\ dom (packages self') = {[package_name]} ∪ dom (packages self)
  /\ utils self' = utils self
  /\ base self' = base self.
Proof.
  unfold import_package.
  destruct (packages self !! package_name) as [cached|] eqn:Hcache.
  - intros [= <- <- <-]. repeat split; try done.
    apply set_eq. intros name. rewrite elem_of_union, elem_of_singleton.
    split; [auto|]. intros [->|H]; [|done]. apply elem_of_dom. by eexists.
  - unfold bind, ret.
    destruct (try_except_all _ _ st) as [st1 [package1|e]]; [|discriminate].
    intros [= <- <- <-]. simpl. repeat split.
    + apply lookup_insert_eq.
    + intros name h Hname. rewrite lookup_insert_ne; [done|]. congruence.
    + apply dom_insert_L.
Qed.

(** X7.  When the package is not in the cache and the first [importr]
    succeeds, [install_packages] is not called: the outcome is the same for
    every installer, and it is the handle of that import, stored in the
    cache, in the world that the import left. *)
Theorem first_import_needs_no_install {W handle}
    (importr : string -> W -> W * (string + handle))
    (install_packages install_packages' : string -> W -> W * (string + unit))
    (self : RPackageManager) (package_name : string) (package : handle)
    (st : state W) (w' : W) :
  packages self !! package_name = None ->
  importr package_name (world st) = (w', inr package) ->
  import_package importr install_packages self package_name st
  = import_package importr install_packages' self package_name st
  /\ import_package importr install_packages self package_name st
     = (mkState w' (environ st) (stdout st),
        Ok (mkManager (utils self) (base self)
              (<[package_name := package]> (packages self)), package)).
Proof.
  intros Hmiss Himport.
  assert (Hrun : forall inst : string -> W -> W * (string + unit),
            import_package importr inst self package_name st
            = (mkState w' (environ st) (stdout st),
               Ok (mkManager (utils self) (base self)
                     (<[package_name := package]> (packages self)), package))).
  { intros inst. unfold import_package. rewrite Hmiss.
    unfold bind, try_except_all, ret.
    by rewrite (external_returns _ _ _ _ Himport). }
  split; [by rewrite !Hrun|apply Hrun].
Qed.

(** X8.  [import_package] raises only after a cache miss and a failed first
    import, and what it raises is then the failure of the installation or,
    when the installation went through, the failure of the second import:
    the exception of the first import is dropped. *)
Theorem import_package_failure {W handle}
    (importr : string -> W -> W * (string + handle))
    (install_packages : string -> W -> W * (string + unit))
    (self : RPackageManager) (package_name : string) (st st' : state W) (e : exn) :
  import_package importr install_packages self package_name st = (st', Raise e) ->
  packages self !! package_name = None
  /\ exists w1 msg1,
       importr package_name (world st) = (w1, inl msg1)
       /\ exists w2 msg,
            e = Exception msg
            /\ world st' = w2
            /\ (install_packages package_name w1 = (w2, inl msg)
                \/ exists w1',
                     install_packages package_name w1 = (w1', inr tt)
                     /\ importr package_name w1' = (w2, inl msg)).
Proof.
  unfold import_package.
  destruct (packages self !! package_name) as [cached|]; [discriminate|].
  unfold bind, try_except_all, external, ret. simpl.
  destruct (importr package_name (world st)) as [w1 [msg1|package]]; [|discriminate].
  simpl. intros Hrun. split; [done|]. exists w1, msg1. split; [done|].
  destruct (install_packages package_name w1) as [w2 [msg|[]]] eqn:Hinst; simpl in Hrun.
  - injection Hrun as <- <-. exists w2, msg. simpl. auto.
  - destruct (importr package_name w2) as [w3 [msg|package]] eqn:Himp; simpl in Hrun.
    + injection Hrun as <- <-. exists w3, msg. simpl.
      split; [done|]. split; [done|]. right. by exists w2.
    + discriminate.
Qed.

(** X9.  A manager that [RPackageManager.__init__] returned holds [utils]
    and [base] in its cache and nothing else, so importing either of them
    again returns the handle loaded at the start and calls neither
    [importr] nor [install_packages]. *)
Theorem manager_starts_with_utils_and_base {W handle}
    (importr : string -> W -> W * (string + handle))
    (install_packages : string -> W -> W * (string + unit))
    (self : RPackageManager) (st st' : state W) :
  RPackageManager_init importr st = (st', Ok self) ->
  dom (packages self) = {["utils"; "base"]}
  /\ (forall st2,
        import_package importr install_packages self "utils" st2
        = (st2, Ok (self, utils self)))
  /\ (forall st2,
        import_package importr install_packages self "base" st2
        = (st2, Ok (self, base self))).
Proof.
  intros Hrun. pose proof (RPackageManager_init_Ok _ _ _ _ Hrun) as Hcache.
  split; [|split].
  - rewrite Hcache, !dom_insert_L, dom_empty_L. apply set_eq. intros name.
    rewrite !elem_of_union, !elem_of_singleton. rewrite elem_of_empty. tauto.
  - intros st2. unfold import_package. rewrite Hcache.
    rewrite lookup_insert_ne by discriminate. by rewrite lookup_insert_eq.
  - intros st2. unfold import_package. rewrite Hcache.
    by rewrite lookup_insert_eq.
Qed.

(** ** Further properties of the constructor *)

Section init_steps.
Context {W handle : Type} (R : state W -> state W -> Prop).
Hypothesis R_refl : forall st, R st st.
Hypothesis R_trans : forall st1 st2 st3, R st1 st2 -> R st2 st3 -> R st1 st3.
Hypothesis R_external : forall A (f : W -> W * (string + A)), steps R (external f).
Hypothesis R_print : forall line, steps R (@print W line).

Variable import_rpy2 : W -> W * (string + unit).
Variable importr : string -> W -> W * (string + handle).
Variable install_packages : string -> W -> W * (string + unit).
Variable robjects_r : string -> W -> W * (string + r_dataframe).



End init_steps.

Lemma init_preamble_spec {W} (os_path_exists : string -> W -> bool)
    (r_home : option string) (st : state W) :
  init_preamble os_path_exists r_home st
  = (mkState (world st)
       (dict_set "R_HOME" (r_home_path r_home) (environ st))
       (stdout st ++ if os_path_exists (r_home_path r_home) (world st)
                     then [] else r_home_warning r_home),
     Ok tt).
Proof.
  unfold init_preamble, setenv, bind. simpl.
  fold (r_home_path r_home).
  destruct (os_path_exists (r_home_path r_home) (world st)).
  - unfold ret. by rewrite app_nil_r.
  - unfold print, bind, r_home_warning. simpl. by rewrite <- app_assoc.
Qed.




(** X13.  A client that the constructor returned has a manager whose cache
    holds exactly [utils], [base], [tidyverse], [ggplot2], [surveymonkey]
    and [readxl], and the four handles of the client are the ones in the
    cache. *)
Theorem init_caches_the_packages {W handle}
    (import_rpy2 : W -> W * (string + unit))
    (importr : string -> W -> W * (string + handle))
    (install_packages : string -> W -> W * (string + unit))
    (robjects_r : string -> W -> W * (string + r_dataframe))
    (os_path_exists : string -> W -> bool)
    (oauth_token r_home : option string) (st st' : state W)
    (client : SurveyMonkeyClient) :
  __init__ import_rpy2 importr install_packages robjects_r os_path_exists
    oauth_token r_home st = (st', Ok client) ->
  dom (packages (r_manager client)) = list_to_set client_packages
  /\ packages (r_manager client) !! "utils" = Some (utils (r_manager client))
  /\ packages (r_manager client) !! "base" = Some (base (r_manager client))
  /\ packages (r_manager client) !! "tidyverse" = Some (tidyverse client)
  /\ packages (r_manager client) !! "ggplot2" = Some (ggplot2 client)
  /\ packages (r_manager client) !! "surveymonkey" = Some (surveymonkey client)
  /\ packages (r_manager client) !! "readxl" = Some (readxl client).
Proof.
  unfold __init__. intros Hrun.
  rewrite (bind_Ok _ _ _ _ _ (init_preamble_spec os_path_exists r_home st)) in Hrun.
  unfold try_except in Hrun.
  destruct (init_body _ _ _ _ _ _) as [st1 [client1|[msg|code]]] eqn:Hbody;
    [|discriminate..].
  injection Hrun as _ <-. clear st'.
  unfold init_body in Hbody.
  apply bind_Ok_inv in Hbody as (s0 & [] & _ & Hbody).
  apply bind_Ok_inv in Hbody as (s1 & m0 & Hm0 & Hbody).
  apply bind_Ok_inv in Hbody as (s2 & [m1 h1] & H1 & Hbody).
  apply bind_Ok_inv in Hbody as (s3 & [m2 h2] & H2 & Hbody).
  apply bind_Ok_inv in Hbody as (s4 & [m3 h3] & H3 & Hbody).
  apply bind_Ok_inv in Hbody as (s5 & [m4 h4] & H4 & Hbody).
  apply bind_Ok_inv in Hbody as (s6 & [] & _ & Hbody).
  injection Hbody as _ <-. simpl in *.
  pose proof (RPackageManager_init_Ok _ _ _ _ Hm0) as Hcache.
  assert (Hu : packages m0 !! "utils" = Some (utils m0)).
  { rewrite Hcache. rewrite lookup_insert_ne by discriminate. apply lookup_insert_eq. }
  assert (Hb : packages m0 !! "base" = Some (base m0)).
  { rewrite Hcache. apply lookup_insert_eq. }
  assert (Hd0 : dom (packages m0) = {["utils"; "base"]}).
  { rewrite Hcache, !dom_insert_L, dom_empty_L. apply set_eq. intros name.
    rewrite !elem_of_union, !elem_of_singleton. rewrite elem_of_empty. tauto. }
  destruct (import_package_Ok _ _ _ _ _ _ _ _ H1) as (C1 & K1 & D1 & U1 & B1).
  destruct (import_package_Ok _ _ _ _ _ _ _ _ H2) as (C2 & K2 & D2 & U2 & B2).
  destruct (import_package_Ok _ _ _ _ _ _ _ _ H3) as (C3 & K3 & D3 & U3 & B3).
  destruct (import_package_Ok _ _ _ _ _ _ _ _ H4) as (C4 & K4 & D4 & U4 & B4).
  repeat split.
  - rewrite D4, D3, D2, D1, Hd0. unfold client_packages.
    apply set_eq. intros name.
    rewrite !elem_of_union, !elem_of_singleton, elem_of_empty. tauto.
  - rewrite U4, U3, U2, U1. auto.
  - rewrite B4, B3, B2, B1. auto.
  - auto.
  - auto.
  - auto.
  - auto.
Qed.

(** ** Further properties of the bulk fetch *)

Lemma size_list_to_set_le (l : list Z) :
  size (list_to_set l : gset Z) <= length l
  /\ (size (list_to_set l : gset Z) = length l <-> NoDup l).
Proof.
  induction l as [|x l [IHle IHeq]].
  - rewrite list_to_set_nil, size_empty. simpl. split; [lia|]. split; [constructor|done].
  - rewrite list_to_set_cons, NoDup_cons. simpl.
    destruct (decide (x ∈ l)) as [Hin|Hnin].
    + assert (E : ({[x]} ∪ list_to_set l : gset Z) = list_to_set l).
      { apply set_eq. intros y. rewrite elem_of_union, elem_of_singleton, elem_of_list_to_set.
        split; [intros [->|?]; done|auto]. }
      rewrite E. split; [lia|]. split; [lia|]. by intros [? _].
    + rewrite size_union, size_singleton.
      * split; [lia|]. rewrite <- IHeq. split; [intros; split; [done|lia]|intros [_ ?]; lia].
      * intros y. rewrite elem_of_singleton, elem_of_list_to_set. by intros ->.
Qed.

Section bulk_more.
Context {W : Type}.
Variable robjects_r : string -> W -> W * (string + r_dataframe).
Implicit Types (st : state W) (d : gmap Z (option DataFrame)).

Lemma replace_stdout_grows (df : DataFrame) (r : r_dataframe) :
  steps stdout_grows (@_replace_r_na_with_pandas_na W df r).
Proof.
  intros st st' res. unfold _replace_r_na_with_pandas_na.
  destruct (for_columns_log (zip (names r) (vectors r)) df st) as [df' ->].
  intros [= <- _]. by eexists.
Qed.

Lemma download_survey_data_stdout_grows survey_id :
  steps stdout_grows (download_survey_data robjects_r survey_id).
Proof.
  unfold download_survey_data, to_pandas.
  apply steps_bind; [apply stdout_grows_trans|apply external_stdout_grows|intros r].
  apply steps_bind; [apply stdout_grows_trans|apply steps_lift, stdout_grows_refl|intros df].
  apply steps_bind; [apply stdout_grows_trans|apply replace_stdout_grows|intros df'].
  apply steps_ret, stdout_grows_refl.
Qed.

(** One turn of the loop, in full: the entry it stores and, after a
    failure, the line it prints last. *)
Lemma download_one_outcome survey_id d st st1 r :
  download_survey_data robjects_r survey_id (add_log st [downloading survey_id])
  = (st1, r) ->
  download_one robjects_r survey_id d st
  = (add_log st1 [match r with
                  | Ok _ => ("Successfully downloaded data for survey ID: "
                               ++ str_of_Z survey_id)%string
                  | Raise e => error_downloading survey_id e
                  end],
     Ok (<[survey_id := entry_of r]> d)).
Proof.
  intros Hdl. unfold download_one, try_except, bind at 1, print at 1.
  fold (add_log st [downloading survey_id]). unfold bind at 1.
  destruct (download_survey_data robjects_r survey_id _) as [st1' r'] eqn:Hdl'.
  injection Hdl as -> ->.
  destruct r as [df|e]; simpl.
  - done.
  - by destruct (download_survey_data_raises _ _ _ _ _ Hdl') as [msg ->].
Qed.

Lemma download_one_stdout_grows survey_id d :
  steps stdout_grows (download_one robjects_r survey_id d).
Proof.
  intros st st' res.
  destruct (download_survey_data robjects_r survey_id (add_log st [downloading survey_id]))
    as [st1 r] eqn:Hdl.
  rewrite (download_one_outcome _ _ _ _ _ Hdl). intros [= <- _].
  destruct (download_survey_data_stdout_grows _ _ _ _ Hdl) as [lines Hout].
  eexists. simpl. rewrite Hout. simpl. by rewrite <- !app_assoc.
Qed.

Lemma for_survey_ids_stdout_grows survey_ids :
  forall d, steps stdout_grows (for_survey_ids robjects_r survey_ids d).
Proof.
  induction survey_ids as [|survey_id rest IH]; intros d; simpl.
  - apply steps_ret, stdout_grows_refl.
  - apply steps_bind; [apply stdout_grows_trans|apply download_one_stdout_grows|apply IH].
Qed.

(** The bulk fetch around one place of the list. *)
Lemma bulk_fetch_at pre survey_id post st st' d st_pre d_pre st1 r :
  download_multiple_surveys robjects_r (pre ++ survey_id :: post) st = (st', Ok d) ->
  download_multiple_surveys robjects_r pre st = (st_pre, Ok d_pre) ->
  download_survey_data robjects_r survey_id (add_log st_pre [downloading survey_id])
  = (st1, r) ->
  for_survey_ids robjects_r post (<[survey_id := entry_of r]> d_pre)
    (add_log st1 [match r with
                  | Ok _ => ("Successfully downloaded data for survey ID: "
                               ++ str_of_Z survey_id)%string
                  | Raise e => error_downloading survey_id e
                  end])
  = (st', Ok d).
Proof.
  unfold download_multiple_surveys. intros Hrun Hpre Hdl.
  rewrite (for_survey_ids_app _ _ _ _ _ _ _ Hpre) in Hrun. simpl in Hrun.
  by rewrite (bind_Ok _ _ _ _ _ (download_one_outcome _ _ _ _ _ Hdl)) in Hrun.
Qed.
End bulk_more.

(** X14.  For any list of ids, repeated or not, the bulk fetch returns a
    mapping and raises nothing; the keys of the mapping are the ids of the
    list; and the mapping has as many entries as the list has ids exactly
    when the ids are pairwise distinct, fewer otherwise. *)
Theorem bulk_fetch_any_list {W} (robjects_r : string -> W -> W * (string + r_dataframe))
    (survey_ids : list Z) (st : state W) :
  exists st' d,
    download_multiple_surveys robjects_r survey_ids st = (st', Ok d)
    /\ dom d = list_to_set survey_ids
    /\ size d <= length survey_ids
    /\ (size d = length survey_ids <-> NoDup survey_ids).
Proof.
  unfold download_multiple_surveys.
  destruct (for_survey_ids_spec robjects_r survey_ids ∅ st) as (st' & d & Hrun & Hdom & _).
  exists st', d. split; [done|].
  rewrite dom_empty_L, (left_id_L ∅ (∪)) in Hdom.
  rewrite <- size_dom, Hdom. split; [done|]. apply size_list_to_set_le.
Qed.

(** X15.  The mapping holds, for each id, the outcome of the last download
    of that id: the DataFrame when it returned, [None] when it raised.
    For an id that stands in the list more than once the earlier outcomes
    are overwritten. *)
Theorem bulk_fetch_last_attempt_wins {W}
    (robjects_r : string -> W -> W * (string + r_dataframe))
    (pre post : list Z) (survey_id : Z) (st st' st_pre st1 : state W)
    (d d_pre : gmap Z (option DataFrame)) (r : result DataFrame) :
  download_multiple_surveys robjects_r (pre ++ survey_id :: post) st = (st', Ok d) ->
  download_multiple_surveys robjects_r pre st = (st_pre, Ok d_pre) ->
  download_survey_data robjects_r survey_id (add_log st_pre [downloading survey_id])
  = (st1, r) ->
  survey_id ∉ post ->
  d !! survey_id = Some (entry_of r).
Proof.
  intros Hrun Hpre Hdl Hlast.
  pose proof (bulk_fetch_at _ _ _ _ _ _ _ _ _ _ _ Hrun Hpre Hdl) as Hpost.
  destruct (for_survey_ids_spec robjects_r post (<[survey_id := entry_of r]> d_pre)
              (add_log st1 [match r with
                            | Ok _ => ("Successfully downloaded data for survey ID: "
                                         ++ str_of_Z survey_id)%string
                            | Raise e => error_downloading survey_id e
                            end]))
    as (st2 & d2 & Hpost' & _ & Hother).
  rewrite Hpost in Hpost'. injection Hpost' as _ <-.
  rewrite (Hother _ Hlast). apply lookup_insert_eq.
Qed.

(** X16.  No download fails in silence: for every place of the list, the
    line announcing the id is on standard output when the fetch is over,
    and when the download at that place raised, the line with the id and
    the message of the exception is there too. *)
Theorem bulk_fetch_logs_every_failure {W}
    (robjects_r : string -> W -> W * (string + r_dataframe))
    (pre post : list Z) (survey_id : Z) (st st' st_pre st1 : state W)
    (d d_pre : gmap Z (option DataFrame)) (r : result DataFrame) :
  download_multiple_surveys robjects_r (pre ++ survey_id :: post) st = (st', Ok d) ->
  download_multiple_surveys robjects_r pre st = (st_pre, Ok d_pre) ->
  download_survey_data robjects_r survey_id (add_log st_pre [downloading survey_id])
  = (st1, r) ->
  downloading survey_id ∈ stdout st'
  /\ forall e, r = Raise e -> error_downloading survey_id e ∈ stdout st'.
Proof.
  intros Hrun Hpre Hdl.
  pose proof (bulk_fetch_at _ _ _ _ _ _ _ _ _ _ _ Hrun Hpre Hdl) as Hpost.
  destruct (for_survey_ids_stdout_grows _ _ _ _ _ _ Hpost) as [lines2 Hout2].
  destruct (download_survey_data_stdout_grows _ _ _ _ _ Hdl) as [lines1 Hout1].
  simpl in Hout1, Hout2. rewrite Hout2, Hout1. split.
  - rewrite !elem_of_app, list_elem_of_singleton. do 3 left. by right.
  - intros e ->. rewrite !elem_of_app, !list_elem_of_singleton. left. by right.
Qed.

(** ** The conversion on a frame that was not built from the data frame *)

Section conversion_general.
Context {W : Type}.
Implicit Types (st : state W) (df : DataFrame).




End conversion_general.








(** ** The further properties on the samples *)




Lemma download_survey_data_shape_witness :
  sample_r (download_survey_data_code 1) 0 = (1, inr sample_frame)
  /\ NoDup (names sample_frame)
  /\ Forall (fun kv : string * r_vector => length (cells (snd kv)) = 3) sample_frame
  /\ exists df lines,
       download_survey_data sample_r 1 (mkState 0 [] [])
       = (mkState 1 [] ([] ++ lines), Ok df)
       /\ index df = seq 0 3
       /\ column_names df = names sample_frame
       /\ Forall (fun kc : string * list pdcell => length (snd kc) = 3) (columns df).
Proof.
  assert (Hnd : NoDup (names sample_frame)) by (simpl; distinct_strings).
  assert (Hlen : Forall (fun kv : string * r_vector => length (cells (snd kv)) = 3)
                   sample_frame).
  { repeat (apply Forall_cons; split; [reflexivity|]). apply Forall_nil_2. }
  split; [reflexivity|]. split; [exact Hnd|]. split; [exact Hlen|].
  apply (download_survey_data_shape sample_r 1%Z (mkState 0 [] []) 1 sample_frame 3
           eq_refl Hnd Hlen).
Defined.

Lemma import_package_extends_cache_witness :
  import_package sample_importr sample_install sample_manager "readxl" (mkState [] [] [])
  = (mkState ["importr readxl"] [] [],
     Ok (mkManager "utils" "base" (<["readxl" := "readxl"]> (packages sample_manager)),
         "readxl"))
  /\ (<["readxl" := "readxl"]> (packages sample_manager) : gmap string string) !! "readxl"
     = Some "readxl"
  /\ (forall name h,
        packages sample_manager !! name = Some h ->
        (<["readxl" := "readxl"]> (packages sample_manager) : gmap string string) !! name
        = Some h).
Proof.
  assert (Hrun : import_package sample_importr sample_install sample_manager "readxl"
                   (mkState [] [] [])
                 = (mkState ["importr readxl"] [] [],
                    Ok (mkManager "utils" "base"
                          (<["readxl" := "readxl"]> (packages sample_manager)),
                        "readxl"))) by reflexivity.
  split; [exact Hrun|].
  destruct (import_package_extends_cache _ _ _ _ _ _ _ _ Hrun) as (Hin & Hkeep & _).
  split; [exact Hin|exact Hkeep].
Defined.

Lemma first_import_needs_no_install_witness :
  packages sample_manager !! "readxl" = None
  /\ sample_importr "readxl" [] = (["importr readxl"], inr "readxl")
  /\ import_package sample_importr sample_install sample_manager "readxl" (mkState [] [] [])
     = import_package sample_importr failing_install sample_manager "readxl"
         (mkState [] [] []).
Proof.
  assert (Hmiss : packages sample_manager !! "readxl" = None) by reflexivity.
  split; [exact Hmiss|]. split; [reflexivity|].
  apply (proj1 (first_import_needs_no_install sample_importr sample_install failing_install
                  sample_manager "readxl" "readxl" (mkState [] [] []) ["importr readxl"]
                  Hmiss eq_refl)).
Defined.

Lemma import_package_failure_witness :
  import_package failing_importr failing_install sample_manager "readxl" (mkState [] [] [])
  = (mkState ["importr readxl"; "install readxl"] [] [], Raise (Exception "no internet"))
  /\ packages sample_manager !! "readxl" = None
  /\ exists w1 msg1,
       failing_importr "readxl" [] = (w1, inl msg1)
       /\ exists w2 msg,
            Exception "no internet" = Exception msg
            /\ ["importr readxl"; "install readxl"] = w2
            /\ (failing_install "readxl" w1 = (w2, inl msg)
                \/ exists w1',
                     failing_install "readxl" w1 = (w1', inr tt)
                     /\ failing_importr "readxl" w1' = (w2, inl msg)).
Proof.
  assert (Hrun : import_package failing_importr failing_install sample_manager "readxl"
                   (mkState [] [] [])
                 = (mkState ["importr readxl"; "install readxl"] [] [],
                    Raise (Exception "no internet"))) by reflexivity.
  split; [exact Hrun|].
  apply (import_package_failure failing_importr failing_install sample_manager "readxl"
           (mkState [] [] []) (mkState ["importr readxl"; "install readxl"] [] [])
           (Exception "no internet") Hrun).
Defined.

Lemma manager_starts_with_utils_and_base_witness :
  RPackageManager_init sample_importr (mkState [] [] [])
  = (mkState ["importr utils"; "importr base"] [] [], Ok sample_manager)
  /\ dom (packages sample_manager) = {["utils"; "base"]}
  /\ (forall st2,
        import_package sample_importr sample_install sample_manager "utils" st2
        = (st2, Ok (sample_manager, "utils")))
  /\ (forall st2,
        import_package sample_importr sample_install sample_manager "base" st2
        = (st2, Ok (sample_manager, "base"))).
Proof.
  assert (Hrun : RPackageManager_init sample_importr (mkState [] [] [])
                 = (mkState ["importr utils"; "importr base"] [] [], Ok sample_manager))
    by reflexivity.
  split; [exact Hrun|].
  apply (manager_starts_with_utils_and_base sample_importr sample_install sample_manager
           (mkState [] [] []) (mkState ["importr utils"; "importr base"] [] []) Hrun).
Defined.



Lemma init_caches_the_packages_witness :
  exists st' client,
    __init__ working_rpy2 sample_importr sample_install sample_r_options
      (fun _ _ => true) (Some "token") None (mkState [] [] [])
    = (st', Ok client)
    /\ dom (packages (r_manager client)) = list_to_set client_packages
    /\ packages (r_manager client) !! "surveymonkey" = Some (surveymonkey client).
Proof.
  destruct (__init__ working_rpy2 sample_importr sample_install sample_r_options
              (fun _ _ => true) (Some "token") None (mkState [] [] []))
    as [st' [client|e]] eqn:Hrun.
  - exists st', client. split; [reflexivity|].
    destruct (init_caches_the_packages _ _ _ _ _ _ _ _ _ _ Hrun)
      as (Hdom & _ & _ & _ & _ & Hsm & _).
    split; [exact Hdom|exact Hsm].
  - vm_compute in Hrun. discriminate Hrun.
Defined.

Lemma bulk_fetch_last_attempt_wins_witness :
  exists st' st_pre st1 d d_pre df,
    download_multiple_surveys flaky_r ([5%Z] ++ 5%Z :: []) (mkState 0 [] []) = (st', Ok d)
    /\ download_multiple_surveys flaky_r [5%Z] (mkState 0 [] []) = (st_pre, Ok d_pre)
    /\ d_pre !! 5%Z = Some None
    /\ download_survey_data flaky_r 5 (add_log st_pre [downloading 5]) = (st1, Ok df)
    /\ (5%Z ∉ @nil Z)
    /\ d !! 5%Z = Some (Some df).
Proof.
  destruct (download_multiple_surveys flaky_r ([5%Z] ++ 5%Z :: []) (mkState 0 [] []))
    as [st' [d|e]] eqn:Hrun; [|vm_compute in Hrun; discriminate Hrun].
  destruct (download_multiple_surveys flaky_r [5%Z] (mkState 0 [] []))
    as [st_pre [d_pre|e]] eqn:Hpre; [|vm_compute in Hpre; discriminate Hpre].
  destruct (download_survey_data flaky_r 5 (add_log st_pre [downloading 5]))
    as [st1 [df|e]] eqn:Hdl.
  - exists st', st_pre, st1, d, d_pre, df.
    assert (Hlast : 5%Z ∉ @nil Z) by apply not_elem_of_nil.
    split; [reflexivity|]. split; [reflexivity|]. split.
    { pose proof Hpre as Hpre'. vm_compute in Hpre'. injection Hpre' as _ <-.
      reflexivity. }
    split; [exact Hdl|]. split; [exact Hlast|].
    apply (bulk_fetch_last_attempt_wins flaky_r [5%Z] [] 5%Z (mkState 0 [] [])
             st' st_pre st1 d d_pre (Ok df) Hrun Hpre Hdl Hlast).
  - vm_compute in Hpre. injection Hpre as <- _. vm_compute in Hdl. discriminate Hdl.
Defined.

Lemma bulk_fetch_logs_every_failure_witness :
  exists st' st1 d,
    download_multiple_surveys flaky_r ([] ++ 5%Z :: [5%Z]) (mkState 0 [] []) = (st', Ok d)
    /\ download_multiple_surveys flaky_r [] (mkState 0 [] []) = (mkState 0 [] [], Ok ∅)
    /\ download_survey_data flaky_r 5 (add_log (mkState 0 [] []) [downloading 5])
       = (st1, Raise (Exception "timeout"))
    /\ downloading 5 ∈ stdout st'
    /\ error_downloading 5 (Exception "timeout") ∈ stdout st'.
Proof.
  destruct (download_multiple_surveys flaky_r ([] ++ 5%Z :: [5%Z]) (mkState 0 [] []))
    as [st' [d|e]] eqn:Hrun; [|vm_compute in Hrun; discriminate Hrun].
  assert (Hpre : download_multiple_surveys flaky_r [] (mkState 0 [] [])
                 = (mkState 0 [] [], Ok ∅)) by reflexivity.
  assert (Hdl : download_survey_data flaky_r 5 (add_log (mkState 0 [] []) [downloading 5])
                = (mkState 1 [] ["Downloading data for survey ID: 5"],
                   Raise (Exception "timeout"))) by reflexivity.
  exists st', (mkState 1 [] ["Downloading data for survey ID: 5"]), d.
  split; [reflexivity|]. split; [exact Hpre|]. split; [exact Hdl|].
  destruct (bulk_fetch_logs_every_failure flaky_r [] [5%Z] 5%Z (mkState 0 [] [])
              st' (mkState 0 [] []) (mkState 1 [] ["Downloading data for survey ID: 5"])
              d ∅ (Raise (Exception "timeout")) Hrun Hpre Hdl) as [Hann Herr].
  split; [exact Hann|]. by apply Herr.
Defined.


